(** * pygatt: the BluetoothLEDevice facade of [pygatt/classes.py]

    A shallow embedding of the device facade: the UUID conversion
    ([_uuid_bytearray]), handle resolution ([_get_handle]), the write /
    wait / reassemble / dispatch protocol of [char_write], the RSSI retry of
    [get_rssi], the callback registry filled by [subscribe], and the
    remaining one-line delegations.  Python state (the [_callbacks]
    dictionary, the backend's notification inbox, the log of calls issued to
    the backend, the observers that were invoked) is threaded explicitly
    through a small state-and-exception monad. *)

From Stdlib Require Import ZArith QArith Qround Strings.String Strings.Ascii
  Strings.Byte Lia Lqa Floats.SpecFloat.
From stdpp Require Import base option list strings gmap.

Local Open Scope Z_scope.
Local Open Scope string_scope.

(** ** Byte strings and Python's text helpers *)

Module PyText.

(** [s.replace(old, new)] for a one-character [old]: every occurrence of
    the character is replaced, left to right. *)
Fixpoint replace (old : ascii) (new s : string) : string :=
  match s with
  | EmptyString => EmptyString
  | String c rest =>
      if Ascii.eqb c old then new ++ replace old new rest
      else String c (replace old new rest)
  end.

(** Value of a hexadecimal digit, in either case, as [binascii] reads it. *)
Definition hex_digit (c : ascii) : option N :=
  let n := N_of_ascii c in
  if ((48 <=? n) && (n <=? 57))%N then Some (n - 48)%N
  else if ((97 <=? n) && (n <=? 102))%N then Some (n - 87)%N
  else if ((65 <=? n) && (n <=? 70))%N then Some (n - 55)%N
  else None.

Definition byte_of_nibbles (hi lo : N) : byte :=
  default x00 (Byte.of_N (16 * hi + lo)).

Inductive hex_error := OddLength | NonHexDigit.

(** [binascii.unhexlify]: two hexadecimal digits per byte; an odd number
    of characters or a character that is no hexadecimal digit is an
    error. *)
Fixpoint unhexlify (s : string) : hex_error + list byte :=
  match s with
  | EmptyString => inr []
  | String _ EmptyString => inl OddLength
  | String a (String b rest) =>
      match hex_digit a, hex_digit b with
      | Some hi, Some lo =>
          match unhexlify rest with
          | inr bs => inr (byte_of_nibbles hi lo :: bs)
          | inl e => inl e
          end
      | _, _ =>
          (* the length is checked before any digit is read *)
          if Nat.even (String.length rest) then inl NonHexDigit
          else inl OddLength
      end
  end.

End PyText.

(** ** Python values the facade handles *)

(** The exceptions that can leave the facade.  [NoResponseError] carries the
    accumulated wait, as in [NoResponseError("Timed out after %s seconds",
    sec_waited)]. *)
Inductive exn :=
| AttributeError (msg : string)
| TypeError (msg : string)
| ValueError (msg : string)
| KeyError
| IndexError
| NotImplementedError (msg : string)
| NotConnectedError (msg : string)
| NoResponseError (msg : string) (sec_waited : Q)
| Exception_ (msg : string).

(** A callback: a Python callable.  A function has a [__name__]; other
    callables (a [functools.partial], an instance with [__call__]) have
    none, and [ob_name] is [None] for them.  Called on a value it either
    returns ([None]) or raises.  Observers are opaque to the facade: they
    see the value only, not the device. *)
Record observer := Observer {
  ob_name : option string;
  ob_body : list byte -> option exn
}.

(** A UUID as it is handed to the backend: the text the caller gave
    (GATTTOOL) or the bytes [_uuid_bytearray] made of it (BLED112). *)
Inductive uuid_arg :=
| UuidStr (s : string)
| UuidRaw (b : list byte).

(** Modelled from the spec: the backend capability interface of section 6
    (connect, bond, encrypt, resolveHandle, readCharacteristic,
    writeCharacteristic, enableSubscription, pollNotificationInbox,
    removeNotification, getSignalStrength, startListener, stopListener,
    disconnect), which the facade receives as an object and whose code is
    not part of [classes.py].  A backend answers each call with a value:
    [bk_rssi n] is the reading of the [n]-th [get_rssi] call and
    [bk_arrivals n] the notifications its listener stores in the inbox
    while the caller sleeps for the [n]-th time.  [bk_shares_inbox] says
    whether [get_notifications] hands out the inbox object itself (section
    5: "a single shared mutable structure") or a copy of it (section 6:
    "snapshot view"). *)
Record backend := Backend {
  bk_connect : option (list byte) -> Q -> bool;
  bk_get_handle : uuid_arg -> option Z;
  bk_char_read : option Z -> option (list byte);
  bk_char_read_uuid : string -> list byte;
  bk_char_write : option Z -> list byte -> bool;
  bk_rssi : nat -> Z;
  bk_arrivals : nat -> list (Z * list byte);
  bk_shares_inbox : bool
}.

(** One call issued to the backend object, with its arguments. *)
Inductive backend_call :=
| CallBond
| CallConnect (mac : option (list byte)) (timeout : Q)
| CallCharRead (handle : option Z)
| CallCharReadUuid (uuid : string)
| CallCharWrite (handle : option Z) (value : list byte)
    (wait_for_response : option bool)
| CallEncrypt
| CallGetRssi
| CallRun
| CallStop
| CallDisconnect
| CallSubscribe (uuid : uuid_arg) (callback : option observer)
    (indication : bool)
| CallGetHandle (uuid : uuid_arg)
| CallGetNotifications
| CallRemoveNotification (handle : option Z) (index : nat).

(** The mutable state a call can touch. *)
Record world := World {
  callbacks : gmap string (list observer);  (* self._callbacks *)
  inbox : gmap Z (list (list byte));        (* the backend's notifications *)
  calls : list backend_call;                (* backend calls, oldest first *)
  invoked : list (observer * list byte);    (* observer calls, oldest first *)
  sleeps : list Q;                          (* time.sleep calls, oldest first *)
  rssi_reads : nat                          (* get_rssi calls answered *)
}.

Definition set_callbacks (f : gmap string (list observer) ->
                              gmap string (list observer)) (w : world) :=
  World (f (callbacks w)) (inbox w) (calls w) (invoked w) (sleeps w)
        (rssi_reads w).
Definition set_inbox (f : gmap Z (list (list byte)) ->
                          gmap Z (list (list byte))) (w : world) :=
  World (callbacks w) (f (inbox w)) (calls w) (invoked w) (sleeps w)
        (rssi_reads w).
Definition log_call (c : backend_call) (w : world) :=
  World (callbacks w) (inbox w) (calls w ++ [c])%list (invoked w) (sleeps w)
        (rssi_reads w).
Definition log_invoked (cb : observer) (v : list byte) (w : world) :=
  World (callbacks w) (inbox w) (calls w) (invoked w ++ [(cb, v)])%list
        (sleeps w) (rssi_reads w).
Definition log_sleep (d : Q) (w : world) :=
  World (callbacks w) (inbox w) (calls w) (invoked w) (sleeps w ++ [d])%list
        (rssi_reads w).
Definition count_rssi_read (w : world) :=
  World (callbacks w) (inbox w) (calls w) (invoked w) (sleeps w)
        (S (rssi_reads w)).

(** ** The state-and-exception monad *)

Inductive outcome (A : Type) :=
| Return (a : A)
| Raise (e : exn)
| OutOfFuel.
Arguments Return {A} a.
Arguments Raise {A} e.
Arguments OutOfFuel {A}.

Definition M (A : Type) : Type := world -> outcome A * world.

Definition ret {A} (a : A) : M A := fun w => (Return a, w).
Definition raise {A} (e : exn) : M A := fun w => (Raise e, w).
Definition out_of_fuel {A} : M A := fun w => (OutOfFuel, w).
Definition bind {A B} (m : M A) (k : A -> M B) : M B :=
  fun w =>
    match m w with
    | (Return a, w') => k a w'
    | (Raise e, w') => (Raise e, w')
    | (OutOfFuel, w') => (OutOfFuel, w')
    end.
Definition gets {A} (f : world -> A) : M A := fun w => (Return (f w), w).
Definition modify (f : world -> world) : M unit := fun w => (Return tt, f w).

Declare Scope py_scope.
Delimit Scope py_scope with py.
Notation "x <- m ;; k" := (bind m (fun x => k))
  (at level 100, m at next level, right associativity) : py_scope.
Notation "m ;; k" := (bind m (fun _ => k))
  (at level 100, right associativity) : py_scope.
Local Open Scope py_scope.

(** Modelled from the spec: the listener of section 5, an independent
    worker that produces into the inbox; what arrives is filed at the tail
    of its handle's queue, a handle without a queue getting one. *)
Definition deliver (arrived : list (Z * list byte))
    (box : gmap Z (list (list byte))) : gmap Z (list (list byte)) :=
  fold_left (fun m '(h, v) => <[h := (default [] (m !! h) ++ [v])%list]> m)
            arrived box.

(** [time.sleep(d)]: the caller is suspended and the listener files what
    arrives meanwhile. *)
Definition sleep (bk : backend) (d : Q) : M unit :=
  fun w =>
    (Return tt,
     log_sleep d (set_inbox (deliver (bk_arrivals bk (length (sleeps w)))) w)).

(** ** The backend object, as the facade calls it

    Modelled from the spec: the methods of the backend object (section 6),
    whose code is not part of [classes.py].  Each call is logged and
    answered by the [backend] at hand; [remove_notification] and
    [get_notifications] act on the inbox. *)

(** What [get_notifications] returns: a reference to the backend's own
    inbox, or a copy made at the time of the call. *)
Inductive notifications_ref :=
| LiveInbox
| Snapshot (box : gmap Z (list (list byte))).

Module BackendObject.

Definition bond : M unit := modify (log_call CallBond).
Definition encrypt : M unit := modify (log_call CallEncrypt).
Definition run : M unit := modify (log_call CallRun).
Definition stop : M unit := modify (log_call CallStop).
Definition disconnect : M unit := modify (log_call CallDisconnect).

Definition connect (bk : backend) (mac : option (list byte)) (timeout : Q)
  : M bool :=
  modify (log_call (CallConnect mac timeout));;
  ret (bk_connect bk mac timeout).

Definition get_handle (bk : backend) (uuid : uuid_arg) : M (option Z) :=
  modify (log_call (CallGetHandle uuid));;
  ret (bk_get_handle bk uuid).

Definition char_read (bk : backend) (handle : option Z)
  : M (option (list byte)) :=
  modify (log_call (CallCharRead handle));;
  ret (bk_char_read bk handle).

Definition char_read_uuid (bk : backend) (uuid : string) : M (list byte) :=
  modify (log_call (CallCharReadUuid uuid));;
  ret (bk_char_read_uuid bk uuid).

Definition char_write (bk : backend) (handle : option Z)
    (value : list byte) (wait_for_response : option bool) : M bool :=
  modify (log_call (CallCharWrite handle value wait_for_response));;
  ret (bk_char_write bk handle value).

Definition subscribe (uuid : uuid_arg) (callback : option observer)
    (indication : bool) : M unit :=
  modify (log_call (CallSubscribe uuid callback indication)).

Definition get_rssi (bk : backend) : M Z :=
  modify (log_call CallGetRssi);;
  n <- gets rssi_reads;;
  modify count_rssi_read;;
  ret (bk_rssi bk n).

Definition get_notifications (bk : backend) : M notifications_ref :=
  modify (log_call CallGetNotifications);;
  if bk_shares_inbox bk then ret LiveInbox
  else box <- gets inbox;; ret (Snapshot box).

(** [del inbox[handle][index]], with Python's errors for a missing key
    and an index out of range. *)
Definition remove_notification (handle : option Z) (index : nat) : M unit :=
  modify (log_call (CallRemoveNotification handle index));;
  box <- gets inbox;;
  match handle with
  | None => raise KeyError
  | Some h =>
      match box !! h with
      | None => raise KeyError
      | Some queue =>
          if (index <? length queue)%nat
          then modify (set_inbox <[h := delete index queue]>)
          else raise IndexError
      end
  end.

End BackendObject.

(** [notifications[handle]] on the object [get_notifications] returned: a
    live reference is read in the current state, a snapshot in its own. *)
Definition subscript (notifications : notifications_ref) (handle : option Z)
  : M (list (list byte)) :=
  box <- gets inbox;;
  let d := match notifications with LiveInbox => box | Snapshot s => s end in
  match handle with
  | None => raise KeyError
  | Some h =>
      match d !! h with
      | Some queue => ret queue
      | None => raise KeyError
      end
  end.

(** ** The facade: class [BluetoothLEDevice] *)

(** [BACKEND['BLED112']], [BACKEND['GATTTOOL']]; [__init__] only ever
    stores one of these two, the third value stands for the [else] branch
    every method ends with. *)
Inductive backend_kind := BLED112 | GATTTOOL | OtherBackend.

(** The attributes [__init__] sets once; [_callbacks] is mutable and lives
    in the [world].  Messages sent to [_logger] are not modelled, the
    evaluation of their arguments is. *)
Record device := Device {
  _backend : backend;
  _backend_type : backend_kind;
  _mac_address : list byte
}.

(** The polling quantum of the wait loop, [0.25], and the pause between two
    RSSI readings, [0.1]. *)
Definition quantum : Q := 1 # 4.
Definition rssi_pause : Q := 1 # 10.

(** [sec_waited] is a Python float, a binary64 number.  It starts at 0 and
    grows by [0.25]: its values are multiples of 0.25, which binary64 holds
    exactly up to [2^51]; there two neighbouring numbers are 0.5 apart and
    [2^51 + 0.25], half way between two of them, is rounded back to
    [2^51]. *)
Definition float_limit : Q := inject_Z (2 ^ 51).

(** [sec_waited + 0.25] in binary64, on the values the counter takes: the
    multiples of 0.25 from 0 to [2^51]. *)
Definition add_quantum (sec_waited : Q) : Q :=
  if Qle_bool float_limit sec_waited then sec_waited
  else (sec_waited + quantum)%Q.

(** The same sum by the Standard Library's specification of IEEE 754
    arithmetic, to compare [add_quantum] with: addition of binary64
    numbers, the number a float stands for, and [n] quanta as a float. *)
Definition binary64_add : spec_float -> spec_float -> spec_float :=
  SFadd 53 1024.

Definition float_value (x : spec_float) : Q :=
  match x with
  | S754_finite negative m e =>
      let v := (inject_Z (Z.pos m) * Qpower 2 e)%Q in
      if negative then (- v)%Q else v
  | _ => 0%Q
  end.

Definition quanta (n : positive) : spec_float := S754_finite false n (-2).

Definition not_implemented {A} : M A := raise (NotImplementedError "backend").

Definition _uuid_bytearray (self : device) (uuid : option string)
  : M (list byte) :=
  match uuid with
  | None =>
      raise (AttributeError "'NoneType' object has no attribute 'replace'")
  | Some s =>
      match PyText.unhexlify (PyText.replace "-" "" s) with
      | inr raw => ret raw
      | inl PyText.OddLength => raise (TypeError "Odd-length string")
      | inl PyText.NonHexDigit =>
          raise (TypeError "Non-hexadecimal digit found")
      end
  end.

Definition _get_handle (self : device) (uuid : option string) : M (option Z) :=
  uuid <- _uuid_bytearray self uuid;;
  match _backend_type self with
  | BLED112 => BackendObject.get_handle (_backend self) (UuidRaw uuid)
  | GATTTOOL => BackendObject.get_handle (_backend self) (UuidRaw uuid)
  | OtherBackend => not_implemented
  end.

Definition bond (self : device) : M unit :=
  match _backend_type self with
  | BLED112 => BackendObject.bond
  | GATTTOOL => BackendObject.bond
  | OtherBackend => not_implemented
  end.

Definition connect (self : device) (timeout : Q) : M unit :=
  match _backend_type self with
  | BLED112 =>
      ok <- BackendObject.connect (_backend self) (Some (_mac_address self))
              timeout;;
      if negb ok then raise (NotConnectedError "Connect failed") else ret tt
  | GATTTOOL =>
      BackendObject.connect (_backend self) None timeout;; ret tt
  | OtherBackend => not_implemented
  end.

Definition char_read (self : device) (uuid : string) : M (list byte) :=
  match _backend_type self with
  | BLED112 =>
      handle <- _get_handle self (Some uuid);;
      match handle with
      | None => raise (ValueError "invalid UUID")
      | Some _ =>
          value <- BackendObject.char_read (_backend self) handle;;
          match value with
          | None => raise (Exception_ "read failed")
          | Some v => ret v
          end
      end
  | GATTTOOL =>
      BackendObject.char_read_uuid (_backend self) uuid
  | OtherBackend => not_implemented
  end.

(** The [while] loop of [char_write].  [fuel] bounds the number of sleeps;
    [poll_budget] below is enough for a timeout of at most [float_limit].
    The comparison of the counter with the timeout is exact, as Python's
    comparison of two numbers is. *)
Fixpoint wait_for_packets (fuel : nat) (self : device)
    (handle_recv : option Z) (num_packets : Z) (bled112_timeout : Q)
    (notifications : notifications_ref) (sec_waited : Q)
  : M (notifications_ref * Q) :=
  queue <- subscript notifications handle_recv;;
  if (Z.of_nat (length queue) <? num_packets)%Z then
    if Qle_bool bled112_timeout sec_waited then
      raise (NoResponseError "Timed out after %s seconds" sec_waited)
    else
      match fuel with
      | O => out_of_fuel
      | S fuel' =>
          sleep (_backend self) quantum;;
          notifications <- BackendObject.get_notifications (_backend self);;
          wait_for_packets fuel' self handle_recv num_packets
            bled112_timeout notifications (add_quantum sec_waited)
      end
  else ret (notifications, sec_waited).

(** The number of rounds after which the counter has reached the timeout:
    [ceil(bled112_timeout / 0.25)], and 0 for a timeout that is not
    positive. *)
Definition poll_budget (bled112_timeout : Q) : nat :=
  Z.to_nat (Qceiling (bled112_timeout / quantum)).

(** The [for i in range(0, num_packets)] loop: read the head of the queue
    through [notifications], extend [value_list], remove index 0. *)
Fixpoint assemble (n : nat) (handle_recv : option Z)
    (notifications : notifications_ref) (value_list : list byte)
  : M (list byte) :=
  match n with
  | O => ret value_list
  | S n' =>
      queue <- subscript notifications handle_recv;;
      match queue with
      | [] => raise IndexError
      | val :: _ =>
          BackendObject.remove_notification handle_recv 0;;
          assemble n' handle_recv notifications (value_list ++ val)%list
      end
  end.

(** [cb(bytearray(value_list))]. *)
Definition call_observer (cb : observer) (value : list byte) : M unit :=
  modify (log_invoked cb value);;
  match ob_body cb value with
  | Some e => raise e
  | None => ret tt
  end.

(** [for cb in self._callbacks[uuid_recv]: cb(bytearray(value_list))]. *)
Fixpoint call_observers (cbs : list observer) (value : list byte) : M unit :=
  match cbs with
  | [] => ret tt
  | cb :: rest => call_observer cb value;; call_observers rest value
  end.

(** [if uuid_recv in self._callbacks: ...]. *)
Definition notify (uuid_recv : option string) (value_list : list byte)
  : M unit :=
  registry <- gets callbacks;;
  match uuid_recv with
  | None => ret tt
  | Some uuid =>
      match registry !! uuid with
      | Some cbs => call_observers cbs value_list
      | None => ret tt
      end
  end.

Definition char_write (self : device) (uuid_write : string)
    (value : list byte) (wait_for_response : bool) (num_packets : Z)
    (uuid_recv : option string) (bled112_timeout : Q) : M unit :=
  match _backend_type self with
  | BLED112 =>
      if wait_for_response && (num_packets <=? 0)%Z then
        raise (ValueError "num_packets must be greater than 0")
      else
        handle_write <- _get_handle self (Some uuid_write);;
        handle_recv <- _get_handle self uuid_recv;;
        ok <- BackendObject.char_write (_backend self) handle_write value
                None;;
        if negb ok then raise (Exception_ "write failed")
        else if wait_for_response then
          notifications <- BackendObject.get_notifications (_backend self);;
          polled <-
             wait_for_packets (poll_budget bled112_timeout) self handle_recv
               num_packets bled112_timeout notifications 0%Q;;
          let notifications := fst polled in
          value_list <-
             assemble (Z.to_nat num_packets) handle_recv notifications [];;
          notify uuid_recv value_list
        else ret tt
  | GATTTOOL =>
      handle <- BackendObject.get_handle (_backend self)
                  (UuidStr uuid_write);;
      BackendObject.char_write (_backend self) handle value
        (Some wait_for_response);;
      ret tt
  | OtherBackend => not_implemented
  end.

Definition encrypt (self : device) : M unit :=
  match _backend_type self with
  | BLED112 => BackendObject.encrypt
  | GATTTOOL => raise (NotImplementedError "pygatt[GATTOOL].encrypt")
  | OtherBackend => not_implemented
  end.

(** What [get_rssi] hands back to its caller: a reading, or an exception
    object as an ordinary return value. *)
Inductive rssi_result :=
| Reading (rssi : Z)
| ExceptionObject (e : exn).

(** [for i in range(0, 3)] of [get_rssi], with [n] rounds left. *)
Fixpoint rssi_rounds (n : nat) (self : device) : M rssi_result :=
  match n with
  | O => ret (ExceptionObject (Exception_ "get rssi failed"))
  | S n' =>
      rssi <- BackendObject.get_rssi (_backend self);;
      if negb (rssi =? 25)%Z then ret (Reading rssi)
      else sleep (_backend self) rssi_pause;; rssi_rounds n' self
  end.

Definition get_rssi (self : device) : M rssi_result :=
  match _backend_type self with
  | BLED112 => rssi_rounds 3 self
  | GATTTOOL => raise (NotImplementedError "pygatt[GATTOOL].get_rssi")
  | OtherBackend => not_implemented
  end.

Definition run (self : device) : M unit :=
  match _backend_type self with
  | BLED112 => BackendObject.run
  | GATTTOOL => BackendObject.run
  | OtherBackend => not_implemented
  end.

Definition stop (self : device) : M unit :=
  match _backend_type self with
  | BLED112 => BackendObject.disconnect;; BackendObject.stop
  | GATTTOOL => BackendObject.stop
  | OtherBackend => not_implemented
  end.

(** [callback.__name__], evaluated for the log line of [subscribe]: an
    [AttributeError] for [None] and for a callable without a name (the
    text of the message names the type of the object). *)
Definition dunder_name (callback : option observer) : M string :=
  match callback with
  | Some cb =>
      match ob_name cb with
      | Some name => ret name
      | None => raise (AttributeError "object has no attribute '__name__'")
      end
  | None =>
      raise (AttributeError "'NoneType' object has no attribute '__name__'")
  end.

(** [if uuid not in d: d[uuid] = []] then [d[uuid].append(callback)]. *)
Definition register (uuid : string) (cb : observer)
    (registry : gmap string (list observer)) : gmap string (list observer) :=
  let registry :=
    match registry !! uuid with
    | None => <[uuid := []]> registry
    | Some _ => registry
    end in
  <[uuid := (default [] (registry !! uuid) ++ [cb])%list]> registry.

Definition subscribe (self : device) (uuid : string)
    (callback : option observer) (indication : bool) : M unit :=
  dunder_name callback;;
  match _backend_type self with
  | BLED112 =>
      raw <- _uuid_bytearray self (Some uuid);;
      BackendObject.subscribe (UuidRaw raw) None indication;;
      match callback with
      | Some cb => modify (set_callbacks (register uuid cb))
      | None => ret tt
      end
  | GATTTOOL => BackendObject.subscribe (UuidStr uuid) callback indication
  | OtherBackend => not_implemented
  end.

(** ** UUID texts, along the spec's words *)

Module UuidText.

Definition is_hex (c : ascii) : bool :=
  match PyText.hex_digit c with Some _ => true | None => false end.

(** Reads [n] hexadecimal digits and returns what follows them. *)
Fixpoint hex_run (n : nat) (s : string) : option string :=
  match n, s with
  | O, _ => Some s
  | S n', String c rest => if is_hex c then hex_run n' rest else None
  | S _, EmptyString => None
  end.

(** Groups of hexadecimal digits of the given sizes, one hyphen between
    two groups and nothing after the last. *)
Fixpoint hex_groups (sizes : list nat) (s : string) : bool :=
  match sizes with
  | [] => false
  | n :: more =>
      match hex_run n s, more with
      | Some EmptyString, [] => true
      | Some (String c rest), _ :: _ =>
          Ascii.eqb c "-" && hex_groups more rest
      | _, _ => false
      end
  end.

(** The canonical form: 8-4-4-4-12 hexadecimal digits. *)
Definition canonical (s : string) : bool :=
  hex_groups [8; 4; 4; 4; 12]%nat s.

Fixpoint strip_hyphens (s : string) : list ascii :=
  match s with
  | EmptyString => []
  | String c rest =>
      if Ascii.eqb c "-" then strip_hyphens rest
      else c :: strip_hyphens rest
  end.

Definition digit_at (digits : list ascii) (i : nat) : N :=
  default 0%N (digits !! i ≫= PyText.hex_digit).

(** Byte [i] of the identifier is written by digits [2i] and [2i+1] of
    the 32 that remain once the hyphens are gone. *)
Definition decode (s : string) : list byte :=
  let digits := strip_hyphens s in
  (fun i => PyText.byte_of_nibbles (digit_at digits (2 * i))
                                   (digit_at digits (2 * i + 1)))
    <$> seq 0 16.

End UuidText.

(** ** Callers of the facade *)

(** One call of a public method, with its arguments. *)
Inductive operation :=
| OpBond
| OpConnect (timeout : Q)
| OpCharRead (uuid : string)
| OpCharWrite (uuid_write : string) (value : list byte)
    (wait_for_response : bool) (num_packets : Z) (uuid_recv : option string)
    (bled112_timeout : Q)
| OpEncrypt
| OpGetRssi
| OpRun
| OpStop
| OpSubscribe (uuid : string) (callback : option observer)
    (indication : bool).

Definition forget {A} (m : M A) : M unit := m;; ret tt.

Definition perform (self : device) (op : operation) : M unit :=
  match op with
  | OpBond => bond self
  | OpConnect timeout => connect self timeout
  | OpCharRead uuid => forget (char_read self uuid)
  | OpCharWrite uuid_write value wait_for_response num_packets uuid_recv
      bled112_timeout =>
      char_write self uuid_write value wait_for_response num_packets
        uuid_recv bled112_timeout
  | OpEncrypt => encrypt self
  | OpGetRssi => forget (get_rssi self)
  | OpRun => run self
  | OpStop => stop self
  | OpSubscribe uuid callback indication =>
      subscribe self uuid callback indication
  end.

(** A caller that goes on after an exception: the state after a sequence
    of calls, whatever each of them returned or raised. *)
Definition session (self : device) (ops : list operation) (w : world)
  : world :=
  fold_left (fun w op => snd (perform self op w)) ops w.

(** ** Vocabulary of the statements *)

(** The observers a dispatch reaches: those before the first one that
    raises on [value], and that one. *)
Fixpoint reached (cbs : list observer) (value : list byte) : list observer :=
  match cbs with
  | [] => []
  | cb :: rest =>
      match ob_body cb value with
      | Some _ => [cb]
      | None => cb :: reached rest value
      end
  end.

(** The exception the dispatch ends with, if an observer raises. *)
Fixpoint first_raise (cbs : list observer) (value : list byte) : option exn :=
  match cbs with
  | [] => None
  | cb :: rest =>
      match ob_body cb value with
      | Some e => Some e
      | None => first_raise rest value
      end
  end.

(** The inbox as the [k]-th poll of a wait that starts in [w] finds it:
    [k] sleeps later. *)
Fixpoint polled_inbox (bk : backend) (w : world) (k : nat)
  : gmap Z (list (list byte)) :=
  match k with
  | O => inbox w
  | S k' =>
      deliver (bk_arrivals bk (length (sleeps w) + k')%nat)
              (polled_inbox bk w k')
  end.

(** The Bluetooth base identifier ["0000XXXX-0000-1000-8000-00805F9B34FB"]
    with the four digits [a b c d] for [XXXX]. *)
Definition base_uuid (a b c d : ascii) : string :=
  String "0" (String "0" (String "0" (String "0"
    (String a (String b (String c (String d
      "-0000-1000-8000-00805F9B34FB"))))))).

Definition hex_value (c : ascii) : N := default 0%N (PyText.hex_digit c).

(** What the three rounds of [get_rssi] come to, reading [r0], [r1], [r2]
    in turn. *)
Definition rssi_verdict (r0 r1 r2 : Z) : rssi_result :=
  if negb (r0 =? 25)%Z then Reading r0
  else if negb (r1 =? 25)%Z then Reading r1
  else if negb (r2 =? 25)%Z then Reading r2
  else ExceptionObject (Exception_ "get rssi failed").

(** The state [k] rounds of the wait loop later: each round sleeps one
    quantum and asks for the notifications again. *)
Fixpoint slept (bk : backend) (w : world) (k : nat) : world :=
  match k with
  | O => w
  | S k' =>
      log_call CallGetNotifications (snd (sleep bk quantum (slept bk w k')))
  end.

(** The reference a poll made in state [w] yields. *)
Definition polled_ref (bk : backend) (w : world) : notifications_ref :=
  if bk_shares_inbox bk then LiveInbox else Snapshot (inbox w).

(** [char_write] on a BLED112 backend, from the resolution of the handles
    to the end of the wait loop: what it knows when reassembly starts. *)
Definition await (self : device) (uuid_write : string) (value : list byte)
    (num_packets : Z) (uuid_recv : option string) (bled112_timeout : Q)
  : M (option Z * notifications_ref) :=
  handle_write <- _get_handle self (Some uuid_write);;
  handle_recv <- _get_handle self uuid_recv;;
  ok <- BackendObject.char_write (_backend self) handle_write value None;;
  if negb ok then raise (Exception_ "write failed")
  else
    notifications <- BackendObject.get_notifications (_backend self);;
    polled <-
      wait_for_packets (poll_budget bled112_timeout) self handle_recv
        num_packets bled112_timeout notifications 0%Q;;
    ret (handle_recv, fst polled).

Definition outcome_of (failure : option exn) : outcome unit :=
  match failure with
  | Some e => Raise e
  | None => Return tt
  end.

(** The reference the wait loop holds after [k] rounds: the one it started
    with, or the one its latest poll returned. *)
Definition held_ref (bk : backend) (first : notifications_ref) (w : world)
    (k : nat) : notifications_ref :=
  match k with
  | O => first
  | S _ => polled_ref bk (slept bk w k)
  end.

(** One round of the loop: sleep, poll. *)
Definition round (bk : backend) (w : world) : world :=
  log_call CallGetNotifications (snd (sleep bk quantum w)).

(** The counter after [j] rounds, while it is below [float_limit]. *)
Definition waited (j : nat) : Q := (inject_Z (Z.of_nat j) * quantum)%Q.

(** How a run of the wait loop that started in [w] holding [first], with
    the counter at [sec], ends after [k] rounds with the counter at [sec']:
    the subscript fails, or the queue it finds is long enough, or it is
    short and the time is up. *)
Definition loop_ends (run : outcome (notifications_ref * Q) * world)
    (self : device) (handle_recv : option Z) (num_packets : Z) (t : Q)
    (first : notifications_ref) (w : world) (k : nat) (sec' : Q) : Prop :=
  let w' := slept (_backend self) w k in
  let held := held_ref (_backend self) first w k in
  (subscript held handle_recv w' = (Raise KeyError, w') /\
   run = (Raise KeyError, w')) \/
  exists queue,
    subscript held handle_recv w' = (Return queue, w') /\
    ((num_packets <= Z.of_nat (length queue) /\
      run = (Return (held, sec'), w')) \/
     (Z.of_nat (length queue) < num_packets /\
      (t <= sec')%Q /\ (k = 0%nat \/ (sec' < t + quantum)%Q) /\
      run = (Raise (NoResponseError "Timed out after %s seconds" sec'), w'))).

(** A computation that never runs out of fuel: it returns or raises. *)
Definition total {A} (m : M A) : Prop := forall w, fst (m w) <> OutOfFuel.

(** The state in which the wait loop of a BLED112 write starts: both
    handles resolved, the write issued, the notifications polled once. *)
Definition started (raw_write raw_recv : list byte) (handle_write : option Z)
    (value : list byte) (w : world) : world :=
  log_call CallGetNotifications
    (log_call (CallCharWrite handle_write value None)
       (log_call (CallGetHandle (UuidRaw raw_recv))
          (log_call (CallGetHandle (UuidRaw raw_write)) w))).

(** A computation that leaves one component of the state as it found it,
    whatever it returns or raises. *)
Definition keeps {A X} (f : world -> X) (m : M A) : Prop :=
  forall w, f (snd (m w)) = f w.

(** ** Fixtures: a fake backend and three observers *)

Module Fixture.

Definition empty_world : world := World ∅ ∅ [] [] [] 0.

(** Resolves every identifier to handle 3 and accepts every write; its
    RSSI readings are given by [rssi], and [arrivals] is what its
    listener stores during each sleep. *)
Definition fake (rssi : nat -> Z) (arrivals : nat -> list (Z * list byte))
    (shares : bool) : backend :=
  Backend (fun _ _ => true) (fun _ => Some 3) (fun _ => Some [])
          (fun _ => []) (fun _ _ => true) rssi arrivals shares.

Definition silent : nat -> list (Z * list byte) := fun _ => [].

(** Two packets on handle 3 during the first sleep, then a straggler. *)
Definition two_packets (n : nat) : list (Z * list byte) :=
  match n with
  | O => [(3, [x01; x02]); (3, [x03; x04])]
  | 1%nat => [(3, [x05])]
  | _ => []
  end.

Definition bled112 (bk : backend) : device := Device bk BLED112 [].

Definition quiet_device : device := bled112 (fake (fun _ => -60) silent true).
Definition stuck_rssi_device : device :=
  bled112 (fake (fun _ => 25) silent true).
Definition flaky_rssi_device : device :=
  bled112 (fake (fun n => if (n <? 2)%nat then 25 else -48) silent true).
Definition answering_device : device :=
  bled112 (fake (fun _ => -60) two_packets true).
Definition copying_device : device :=
  bled112 (fake (fun _ => -60) silent false).

Definition uuid_tx : string := "0000FFE1-0000-1000-8000-00805F9B34FB".
Definition uuid_rx : string := "0000FFE2-0000-1000-8000-00805F9B34FB".

Definition good : observer := Observer (Some "good") (fun _ => None).
Definition other : observer := Observer (Some "other") (fun _ => None).
Definition bad : observer :=
  Observer (Some "bad") (fun _ => Some (Exception_ "boom")).

(** A callable without a [__name__], such as [functools.partial(f)]. *)
Definition nameless : observer := Observer None (fun _ => None).

(** [cbs] are registered for [uuid_rx] and handle 3 has [queue] waiting. *)
Definition listening (cbs : list observer) (queue : list (list byte))
  : world :=
  World {[ uuid_rx := cbs ]} {[ 3 := queue ]} [] [] [] 0.

(** Other spellings: [uuid_tx] with its hyphens gone but for three stray
    ones, and [uuid_rx] in lower case. *)
Definition uuid_tx_unhyphenated : string :=
  "0000FFE100001000-800000805F9B34FB--".
Definition uuid_rx_lower : string := "0000ffe2-0000-1000-8000-00805f9b34fb".

(** A stand-in for [int(b, 16)] on plain digits: one hexadecimal digit or
    more, nothing else. *)
Fixpoint hex_number (acc : Z) (s : string) : option Z :=
  match s with
  | EmptyString => Some acc
  | String c rest =>
      match PyText.hex_digit c with
      | Some v => hex_number (16 * acc + Z.of_N v) rest
      | None => None
      end
  end.

Definition plain_int16 (s : string) : option Z :=
  match s with
  | EmptyString => None
  | _ => hex_number 0 s
  end.

End Fixture.

(** A call that can reach observers: a write that waits for a response. *)
Definition waits (op : operation) : bool :=
  match op with
  | OpCharWrite _ _ wait_for_response _ _ _ => wait_for_response
  | _ => false
  end.

(** How many of the next three readings, from the first on, are the
    sentinel: the number of pauses [get_rssi] will make. *)
Definition sentinels_ahead (self : device) (w : world) : nat :=
  let r i := bk_rssi (_backend self) (rssi_reads w + i)%nat in
  if negb (r 0%nat =? 25)%Z then 0
  else if negb (r 1%nat =? 25)%Z then 1
  else if negb (r 2%nat =? 25)%Z then 2
  else 3.

Definition gatttool (bk : backend) : device := Device bk GATTTOOL [].

(** ** Construction *)

(** [s.split(sep)] for a one-character [sep]: the pieces between the
    separators, empty pieces included, at least one piece. *)
Fixpoint split (sep : ascii) (s : string) : list string :=
  match s with
  | EmptyString => [EmptyString]
  | String c rest =>
      if Ascii.eqb c sep then EmptyString :: split sep rest
      else
        match split sep rest with
        | piece :: pieces => String c piece :: pieces
        | [] => [String c EmptyString]
        end
  end.

(** [bytearray(ints)]: every integer has to be a byte. *)
Definition bytearray (ints : list Z) : exn + list byte :=
  if forallb (fun z => (0 <=? z)%Z && (z <? 256)%Z) ints
  then inr (map (fun z => default x00 (Byte.of_N (Z.to_N z))) ints)
  else inl (ValueError "byte must be in range(0, 256)").

Section Construction.

(** Python's [int(b, 16)], [None] standing for its [ValueError], and the
    constructor of the GATTTOOL backend, which is not part of
    [classes.py]. *)
Variable int16 : string -> option Z.
Variable GATTToolBackend : string -> string -> backend.

(** [bytearray([int(b, 16) for b in mac_address.split(":")])]. *)
Definition mac_bytearray (mac_address : string) : exn + list byte :=
  match mapM int16 (split ":" mac_address) with
  | None => inl (ValueError "invalid literal for int() with base 16")
  | Some ints => bytearray ints
  end.

(** [__init__]: an empty registry, then the choice of the backend; the
    address is parsed for the BLED112 backend only.  The set-up of the
    logger is left out. *)
Definition __init__ (mac_address : string) (hci_device : string)
    (bled112 : option backend) : M device :=
  modify (set_callbacks (fun _ => ∅));;
  match bled112 with
  | Some bk =>
      match mac_bytearray mac_address with
      | inr mac => ret (Device bk BLED112 mac)
      | inl e => raise e
      end
  | None => ret (Device (GATTToolBackend mac_address hci_device) GATTTOOL [])
  end.

End Construction.

(** What the statements ask of [int(b, 16)]: two hexadecimal digits are
    read as the number they write, and the empty text is refused. *)
Definition reads_hex_pairs (int16 : string -> option Z) : Prop :=
  forall a b hi lo,
    PyText.hex_digit a = Some hi -> PyText.hex_digit b = Some lo ->
    int16 (String a (String b EmptyString)) = Some (Z.of_N (16 * hi + lo)).

Definition refuses_empty (int16 : string -> option Z) : Prop :=
  int16 EmptyString = None.

(** An address written as groups of two digits with colons between. *)
Definition group_text (g : ascii * ascii) : string :=
  String (fst g) (String (snd g) EmptyString).

Fixpoint mac_text (groups : list (ascii * ascii)) : string :=
  match groups with
  | [] => EmptyString
  | [g] => group_text g
  | g :: more => group_text g ++ String ":" (mac_text more)
  end.

Definition group_byte (g : ascii * ascii) : byte :=
  PyText.byte_of_nibbles (hex_value (fst g)) (hex_value (snd g)).

Definition hex_group (g : ascii * ascii) : bool :=
  UuidText.is_hex (fst g) && UuidText.is_hex (snd g).

(** * Properties *)

(** ** Identifier to bytes *)

Section UuidBytes.

Import UuidText.

Lemma hex_is_no_hyphen (c : ascii) :
  is_hex c = true -> Ascii.eqb c "-" = false.
Proof.
  destruct c as [[] [] [] [] [] [] [] []]; vm_compute; intros; congruence.
Qed.

Lemma replace_is_strip (s : string) :
  list_ascii_of_string (PyText.replace "-" "" s) = strip_hyphens s.
Proof.
  induction s as [|c s IH]; [reflexivity|].
  cbn [PyText.replace strip_hyphens].
  destruct (Ascii.eqb c "-"); [exact IH|].
  cbn [list_ascii_of_string]. f_equal. exact IH.
Qed.

Lemma string_length_chars (s : string) :
  String.length s = length (list_ascii_of_string s).
Proof. induction s; simpl; congruence. Qed.

Lemma hex_run_strip (n : nat) : forall s r,
  hex_run n s = Some r ->
  exists g, length g = n /\ Forall (fun c => is_hex c = true) g /\
            strip_hyphens s = (g ++ strip_hyphens r)%list.
Proof.
  induction n as [|n IH]; intros s r H; simpl in H.
  - exists []. destruct s; inversion H; subst; auto.
  - destruct s as [|c s]; [discriminate|].
    destruct (is_hex c) eqn:Hc; [|discriminate].
    destruct (IH _ _ H) as (g & Hlen & Hhex & Hs).
    exists (c :: g). simpl. rewrite (hex_is_no_hyphen _ Hc), Hs, Hlen.
    auto.
Qed.

Lemma hex_groups_strip (sizes : list nat) : forall s,
  hex_groups sizes s = true ->
  Forall (fun c => is_hex c = true) (strip_hyphens s) /\
  length (strip_hyphens s) = foldr Nat.add 0%nat sizes.
Proof.
  induction sizes as [|n more IH]; intros s H; simpl in H; [discriminate|].
  destruct (hex_run n s) as [r|] eqn:Hrun; [|discriminate].
  destruct (hex_run_strip _ _ _ Hrun) as (g & Hlen & Hhex & Hs).
  rewrite Hs. destruct r as [|c r].
  - destruct more; [|discriminate]. simpl.
    rewrite app_nil_r. split; [assumption|lia].
  - destruct more as [|m more]; [discriminate|].
    apply andb_prop in H as [Hc H]. simpl strip_hyphens. rewrite Hc.
    destruct (IH _ H) as [Hall Hsum]. split.
    + apply Forall_app; auto.
    + rewrite length_app, Hsum, Hlen. reflexivity.
Qed.

Lemma digit_at_skip (a b : ascii) (l : list ascii) (i : nat) :
  digit_at (a :: b :: l) (2 * S i) = digit_at l (2 * i) /\
  digit_at (a :: b :: l) (2 * S i + 1) = digit_at l (2 * i + 1).
Proof.
  unfold digit_at.
  replace (2 * S i)%nat with (S (S (2 * i))) by lia.
  replace (S (S (2 * i)) + 1)%nat with (S (S (2 * i + 1))) by lia.
  split; reflexivity.
Qed.

Lemma unhexlify_digits (k : nat) : forall s,
  String.length s = (2 * k)%nat ->
  Forall (fun c => is_hex c = true) (list_ascii_of_string s) ->
  PyText.unhexlify s =
  inr ((fun i =>
          PyText.byte_of_nibbles
            (digit_at (list_ascii_of_string s) (2 * i))
            (digit_at (list_ascii_of_string s) (2 * i + 1)))
       <$> seq 0 k).
Proof.
  induction k as [|k IH]; intros s Hlen Hhex.
  - destruct s; [reflexivity|discriminate].
  - destruct s as [|a [|b s]]; try (simpl in Hlen; lia).
    simpl in Hhex. inversion Hhex as [|? ? Ha Hhex']; subst.
    inversion Hhex' as [|? ? Hb Hrest]; subst.
    unfold is_hex in Ha, Hb.
    destruct (PyText.hex_digit a) as [hi|] eqn:Ea; [|discriminate].
    destruct (PyText.hex_digit b) as [lo|] eqn:Eb; [|discriminate].
    cbn [PyText.unhexlify]. rewrite Ea, Eb.
    rewrite (IH s) by (simpl in Hlen; lia || assumption).
    cbn [seq fmap list_fmap list_ascii_of_string].
    f_equal. f_equal.
    + unfold digit_at. simpl. rewrite Ea, Eb. reflexivity.
    + rewrite <- fmap_S_seq, <- list_fmap_compose.
      apply list_fmap_ext. intros i j _.
      destruct (digit_at_skip a b (list_ascii_of_string s) j) as [E1 E2].
      unfold compose. rewrite E1, E2. reflexivity.
Qed.

Lemma unhexlify_canonical (s : string) :
  canonical s = true ->
  PyText.unhexlify (PyText.replace "-" "" s) = inr (decode s).
Proof.
  intros H. apply hex_groups_strip in H as [Hhex Hlen].
  unfold decode. rewrite <- replace_is_strip in *.
  apply (unhexlify_digits 16); [|assumption].
  rewrite string_length_chars. exact Hlen.
Qed.

End UuidBytes.

Lemma strip_hex_digit (c : ascii) (rest : string) :
  UuidText.is_hex c = true ->
  UuidText.strip_hyphens (String c rest) = c :: UuidText.strip_hyphens rest.
Proof.
  intros Hc. cbn [UuidText.strip_hyphens].
  rewrite (hex_is_no_hyphen _ Hc). reflexivity.
Qed.

Lemma canonical_base_uuid (a b c d : ascii) :
  UuidText.canonical (base_uuid a b c d) = true ->
  UuidText.is_hex a = true /\ UuidText.is_hex b = true /\
  UuidText.is_hex c = true /\ UuidText.is_hex d = true.
Proof.
  unfold UuidText.canonical, base_uuid.
  cbn [UuidText.hex_groups UuidText.hex_run].
  replace (UuidText.is_hex "0") with true by reflexivity. cbv iota.
  destruct (UuidText.is_hex a); [|discriminate].
  destruct (UuidText.is_hex b); [|discriminate].
  destruct (UuidText.is_hex c); [|discriminate].
  destruct (UuidText.is_hex d); [|discriminate].
  auto.
Qed.

Lemma strip_base_uuid (a b c d : ascii) :
  UuidText.canonical (base_uuid a b c d) = true ->
  UuidText.strip_hyphens (base_uuid a b c d) =
  ("0" :: "0" :: "0" :: "0" :: a :: b :: c :: d ::
   list_ascii_of_string "00001000800000805F9B34FB")%char.
Proof.
  intros H. apply canonical_base_uuid in H as (Ha & Hb & Hc & Hd).
  unfold base_uuid.
  rewrite !(strip_hex_digit "0") by reflexivity.
  rewrite (strip_hex_digit a), (strip_hex_digit b), (strip_hex_digit c),
    (strip_hex_digit d) by assumption.
  reflexivity.
Qed.

(** C7. For every canonically hyphenated UUID text, [_uuid_bytearray]
    returns, in every state and without changing it, the 16 bytes obtained
    by dropping the hyphens and reading the 32 hexadecimal digits two by
    two; for ["0000XXXX-0000-1000-8000-00805F9B34FB"] these are
    [00 00 XX XX 00 00 10 00 80 00 00 80 5F 9B 34 FB]. *)
Theorem uuid_bytearray_decodes_canonical
    (self : device) (uuid : string) (w : world) :
  UuidText.canonical uuid = true ->
  _uuid_bytearray self (Some uuid) w = (Return (UuidText.decode uuid), w) /\
  length (UuidText.decode uuid) = 16%nat /\
  forall a b c d, uuid = base_uuid a b c d ->
    UuidText.decode uuid =
    [x00; x00; PyText.byte_of_nibbles (hex_value a) (hex_value b);
     PyText.byte_of_nibbles (hex_value c) (hex_value d);
     x00; x00; x10; x00; x80; x00; x00; x80; x5f; x9b; x34; xfb].
Proof.
  intros Hcanon. split; [|split].
  - unfold _uuid_bytearray. rewrite (unhexlify_canonical _ Hcanon).
    reflexivity.
  - unfold UuidText.decode. rewrite length_fmap, length_seq. reflexivity.
  - intros a b c d ->. unfold UuidText.decode.
    rewrite (strip_base_uuid _ _ _ _ Hcanon).
    reflexivity.
Qed.

Lemma uuid_bytearray_decodes_canonical_witness :
  UuidText.canonical Fixture.uuid_tx = true /\
  _uuid_bytearray Fixture.quiet_device (Some Fixture.uuid_tx)
    Fixture.empty_world =
  (Return (UuidText.decode Fixture.uuid_tx), Fixture.empty_world).
Proof.
  split; [reflexivity|].
  exact (proj1 (uuid_bytearray_decodes_canonical Fixture.quiet_device
                  Fixture.uuid_tx Fixture.empty_world eq_refl)).
Defined.

(** ** Running the monad *)

Lemma bind_return {A B} (m : M A) (k : A -> M B) (w w' : world) (a : A) :
  m w = (Return a, w') -> bind m k w = k a w'.
Proof. intros H. unfold bind. rewrite H. reflexivity. Qed.

Lemma bind_raise {A B} (m : M A) (k : A -> M B) (w w' : world) (e : exn) :
  m w = (Raise e, w') -> bind m k w = (Raise e, w').
Proof. intros H. unfold bind. rewrite H. reflexivity. Qed.

Lemma world_eta (w : world) :
  World (callbacks w) (inbox w) (calls w) (invoked w) (sleeps w)
        (rssi_reads w) = w.
Proof. destruct w; reflexivity. Qed.

(** ** Signal strength *)

Lemma get_rssi_bled112 (self : device) (w : world) :
  _backend_type self = BLED112 ->
  let r i := bk_rssi (_backend self) (rssi_reads w + i)%nat in
  fst (get_rssi self w) = Return (rssi_verdict (r 0%nat) (r 1%nat) (r 2%nat)).
Proof.
  intros Hkind r. unfold get_rssi. rewrite Hkind.
  unfold rssi_verdict, rssi_rounds, BackendObject.get_rssi, bind, modify,
    gets, ret, sleep. cbn.
  subst r. cbv beta.
  replace (rssi_reads w + 0)%nat with (rssi_reads w) by lia.
  replace (rssi_reads w + 1)%nat with (S (rssi_reads w)) by lia.
  replace (rssi_reads w + 2)%nat with (S (S (rssi_reads w))) by lia.
  destruct (bk_rssi (_backend self) (rssi_reads w) =? 25)%Z; cbn;
    [|reflexivity].
  destruct (bk_rssi (_backend self) (S (rssi_reads w)) =? 25)%Z; cbn;
    [|reflexivity].
  destruct (bk_rssi (_backend self) (S (S (rssi_reads w))) =? 25)%Z; cbn;
    reflexivity.
Qed.

(** On a BLED112 backend [get_rssi] has no path that raises. *)
Lemma get_rssi_bled112_returns (self : device) (w : world) :
  _backend_type self = BLED112 ->
  exists result, fst (get_rssi self w) = Return result.
Proof. intros H. eexists. apply (get_rssi_bled112 self w H). Qed.

(** C1. The failing input: a BLED112 backend that answers 25 to each of the
    three readings.  [get_rssi] asks three times, pauses after each, and
    then returns -- it does not raise -- an exception object to its
    caller. *)
Theorem get_rssi_sentinel_thrice_returns_exception_object :
  get_rssi Fixture.stuck_rssi_device Fixture.empty_world =
  (Return (ExceptionObject (Exception_ "get rssi failed")),
   World ∅ ∅ [CallGetRssi; CallGetRssi; CallGetRssi] []
         [rssi_pause; rssi_pause; rssi_pause] 3).
Proof. vm_compute. reflexivity. Qed.

(** The retry itself works: two sentinels, then a reading. *)
Example get_rssi_third_reading :
  fst (get_rssi Fixture.flaky_rssi_device Fixture.empty_world) =
  Return (Reading (-48)).
Proof. vm_compute. reflexivity. Qed.

(** ** Subscribing *)

(** C9. [subscribe] with [callback = None], the declared default, raises
    [AttributeError] while the arguments of its log line are evaluated:
    nothing has been sent to the backend and the registry (like the rest
    of the state) is as it was. *)
Theorem subscribe_without_callback_raises
    (self : device) (uuid : string) (indication : bool) (w : world) :
  subscribe self uuid None indication w =
  (Raise (AttributeError "'NoneType' object has no attribute '__name__'"), w).
Proof. reflexivity. Qed.

(** ** Writing: the guards before any I/O *)

(** C6. On a BLED112 backend, waiting for a response with [num_packets <= 0]
    raises [ValueError] at once: the state is untouched, so no handle was
    resolved, nothing was written and the inbox was not read. *)
Theorem char_write_rejects_nonpositive_num_packets
    (self : device) (uuid_write : string) (value : list byte)
    (num_packets : Z) (uuid_recv : option string) (bled112_timeout : Q)
    (w : world) :
  _backend_type self = BLED112 ->
  num_packets <= 0 ->
  char_write self uuid_write value true num_packets uuid_recv
    bled112_timeout w =
  (Raise (ValueError "num_packets must be greater than 0"), w).
Proof.
  intros Hkind Hn. unfold char_write. rewrite Hkind.
  apply Z.leb_le in Hn. rewrite Hn. reflexivity.
Qed.

Lemma char_write_rejects_nonpositive_num_packets_witness :
  char_write Fixture.quiet_device Fixture.uuid_tx [x01] true 0
    (Some Fixture.uuid_rx) 1 Fixture.empty_world =
  (Raise (ValueError "num_packets must be greater than 0"),
   Fixture.empty_world).
Proof.
  apply char_write_rejects_nonpositive_num_packets; [reflexivity|lia].
Defined.

(** [_uuid_bytearray] never touches the state. *)
Lemma uuid_bytearray_pure (self : device) (uuid : option string) (w : world) :
  snd (_uuid_bytearray self uuid w) = w.
Proof.
  unfold _uuid_bytearray. destruct uuid as [s|]; [|reflexivity].
  destruct (PyText.unhexlify _) as [[]|]; reflexivity.
Qed.

(** On a BLED112 backend [_get_handle] either fails in the conversion,
    leaving the state alone, or asks the backend once. *)
Lemma get_handle_bled112 (self : device) (uuid : option string) (w : world) :
  _backend_type self = BLED112 ->
  (exists e, _uuid_bytearray self uuid w = (Raise e, w) /\
             _get_handle self uuid w = (Raise e, w)) \/
  (exists raw, _uuid_bytearray self uuid w = (Return raw, w) /\
     _get_handle self uuid w =
     (Return (bk_get_handle (_backend self) (UuidRaw raw)),
      log_call (CallGetHandle (UuidRaw raw)) w)).
Proof.
  intros Hkind. unfold _get_handle.
  pose proof (uuid_bytearray_pure self uuid w) as Hpure.
  destruct (_uuid_bytearray self uuid w) as [[raw|e|] w'] eqn:E;
    simpl in Hpure; subst w'.
  - right. exists raw. split; [reflexivity|].
    unfold bind at 1. rewrite E, Hkind. reflexivity.
  - left. exists e. split; [reflexivity|].
    unfold bind. rewrite E. reflexivity.
  - exfalso. revert E. unfold _uuid_bytearray.
    destruct uuid as [s|]; [|discriminate].
    destruct (PyText.unhexlify _) as [[]|]; discriminate.
Qed.

(** Without a response identifier a BLED112 write never gets as far as the
    backend's [char_write], whatever [wait_for_response] says: it raises,
    having at most resolved the write identifier. *)
Lemma char_write_bled112_needs_uuid_recv
    (self : device) (uuid_write : string) (value : list byte)
    (wait_for_response : bool) (num_packets : Z) (bled112_timeout : Q)
    (w : world) :
  _backend_type self = BLED112 ->
  exists e w',
    char_write self uuid_write value wait_for_response num_packets None
      bled112_timeout w = (Raise e, w') /\
    (w' = w \/ exists raw, w' = log_call (CallGetHandle (UuidRaw raw)) w).
Proof.
  intros Hkind. unfold char_write. rewrite Hkind.
  destruct (wait_for_response && (num_packets <=? 0)%Z).
  { eexists _, w. split; [reflexivity|auto]. }
  destruct (get_handle_bled112 self (Some uuid_write) w Hkind)
    as [(e & _ & Hw)|(raw & _ & Hw)].
  - exists e, w. split; [|auto]. apply bind_raise. exact Hw.
  - eexists _, _. split; [|right; exists raw; reflexivity].
    rewrite (bind_return _ _ _ _ _ Hw).
    apply bind_raise. reflexivity.
Qed.

(** C3. The failing input: the default call shape, [wait_for_response =
    False] and [uuid_recv = None], on a BLED112 backend.  The response
    identifier is resolved all the same, [None.replace] raises
    [AttributeError], and the backend never sees the write. *)
Theorem char_write_default_call_raises :
  char_write Fixture.quiet_device Fixture.uuid_tx [x01] false 1 None 5
    Fixture.empty_world =
  (Raise (AttributeError "'NoneType' object has no attribute 'replace'"),
   World ∅ ∅
     [CallGetHandle (UuidRaw (UuidText.decode Fixture.uuid_tx))] [] [] 0).
Proof. vm_compute. reflexivity. Qed.

(** ** Dispatch to the observers *)

Lemma call_observers_run (cbs : list observer) (value : list byte) :
  forall w,
    call_observers cbs value w =
    (outcome_of (first_raise cbs value),
     World (callbacks w) (inbox w) (calls w)
           (invoked w ++ map (fun cb => (cb, value)) (reached cbs value))
           (sleeps w) (rssi_reads w)).
Proof.
  induction cbs as [|cb rest IH]; intros w.
  - cbn. rewrite app_nil_r, world_eta. reflexivity.
  - cbn [call_observers first_raise reached].
    unfold bind, call_observer at 1, bind, modify, raise, ret. cbn.
    destruct (ob_body cb value) as [e|]; cbn; [reflexivity|].
    rewrite IH. cbn. rewrite <- app_assoc. reflexivity.
Qed.

Lemma notify_run (uuid_recv : option string) (value : list byte) (w : world) :
  notify uuid_recv value w =
  call_observers (default [] (uuid_recv ≫= fun u => callbacks w !! u))
                 value w.
Proof.
  unfold notify, bind, gets. cbn.
  destruct uuid_recv as [u|]; cbn; [|reflexivity].
  destruct (callbacks w !! u); reflexivity.
Qed.

Lemma reached_all (cbs : list observer) (value : list byte) :
  Forall (fun cb => ob_body cb value = None) cbs ->
  reached cbs value = cbs /\ first_raise cbs value = None.
Proof.
  induction 1 as [|cb rest Hcb _ [IH1 IH2]]; [split; reflexivity|].
  cbn. rewrite Hcb, IH1, IH2. split; reflexivity.
Qed.

Lemma reached_until (before after : list observer) (cb : observer)
    (value : list byte) (e : exn) :
  Forall (fun cb => ob_body cb value = None) before ->
  ob_body cb value = Some e ->
  reached (before ++ cb :: after) value = (before ++ [cb])%list /\
  first_raise (before ++ cb :: after) value = Some e.
Proof.
  intros Hbefore Hcb.
  induction Hbefore as [|p rest Hp _ [IH1 IH2]]; cbn.
  - rewrite Hcb. split; reflexivity.
  - rewrite Hp, IH1, IH2. split; reflexivity.
Qed.

(** ** [char_write] in phases *)

Lemma bind_assoc {A B C} (m : M A) (f : A -> M B) (g : B -> M C) (w : world) :
  bind (bind m f) g w = bind m (fun a => bind (f a) g) w.
Proof. unfold bind. destruct (m w) as [[a|e|] w']; reflexivity. Qed.

Lemma bind_ext {A B} (m : M A) (f g : A -> M B) (w : world) :
  (forall a w', f a w' = g a w') -> bind m f w = bind m g w.
Proof.
  intros H. unfold bind. destruct (m w) as [[a|e|] w']; auto.
Qed.

(** With [wait_for_response] and a positive [num_packets], a BLED112 write
    is: wait, reassemble, dispatch. *)
Lemma char_write_phases (self : device) (uuid_write : string)
    (value : list byte) (num_packets : Z) (uuid_recv : option string)
    (bled112_timeout : Q) (w : world) :
  _backend_type self = BLED112 ->
  0 < num_packets ->
  char_write self uuid_write value true num_packets uuid_recv
    bled112_timeout w =
  (ready <- await self uuid_write value num_packets uuid_recv
              bled112_timeout;;
   value_list <- assemble (Z.to_nat num_packets) (fst ready) (snd ready) [];;
   notify uuid_recv value_list) w.
Proof.
  intros Hkind Hn. unfold char_write, await. rewrite Hkind.
  replace (num_packets <=? 0)%Z with false by (symmetry; apply Z.leb_gt; lia).
  cbn [andb].
  rewrite bind_assoc. apply bind_ext. intros handle_write w1.
  rewrite bind_assoc. apply bind_ext. intros handle_recv w2.
  rewrite bind_assoc. apply bind_ext. intros ok w3.
  destruct ok; cbn [negb]; [|reflexivity].
  rewrite bind_assoc. apply bind_ext. intros notifications w4.
  rewrite bind_assoc. apply bind_ext. intros polled w5.
  reflexivity.
Qed.

(** ** Reassembly *)

Lemma subscript_cases (notifications : notifications_ref)
    (handle : option Z) (w : world) :
  subscript notifications handle w = (Raise KeyError, w) \/
  exists queue, subscript notifications handle w = (Return queue, w).
Proof.
  unfold subscript, bind, gets. cbn.
  destruct handle as [h|]; [|left; reflexivity].
  destruct (_ !! h) as [queue|]; [right; eauto|left; reflexivity].
Qed.

Lemma subscript_live (h : Z) (w : world) (queue : list (list byte)) :
  inbox w !! h = Some queue ->
  subscript LiveInbox (Some h) w = (Return queue, w).
Proof. intros H. unfold subscript, bind, gets. cbn. rewrite H. reflexivity. Qed.

Lemma remove_head_run (h : Z) (val : list byte) (rest : list (list byte))
    (w : world) :
  inbox w !! h = Some (val :: rest) ->
  BackendObject.remove_notification (Some h) 0 w =
  (Return tt,
   World (callbacks w) (<[h := rest]> (inbox w))
         (calls w ++ [CallRemoveNotification (Some h) 0])
         (invoked w) (sleeps w) (rssi_reads w)).
Proof.
  intros Hq. unfold BackendObject.remove_notification, bind, modify, gets.
  cbn. rewrite Hq. reflexivity.
Qed.

(** Through a live reference the loop takes the first [n] entries in
    order, removing each as it goes. *)
Lemma assemble_live (n : nat) :
  forall (h : Z) (queue : list (list byte)) (acc : list byte) (w : world),
    inbox w !! h = Some queue ->
    (n <= length queue)%nat ->
    assemble n (Some h) LiveInbox acc w =
    (Return (acc ++ concat (take n queue))%list,
     World (callbacks w) (<[h := drop n queue]> (inbox w))
           (calls w ++ repeat (CallRemoveNotification (Some h) 0) n)
           (invoked w) (sleeps w) (rssi_reads w)).
Proof.
  induction n as [|n IH]; intros h queue acc w Hq Hlen.
  - cbn. rewrite !app_nil_r, drop_0, (insert_id _ _ _ Hq), world_eta.
    reflexivity.
  - destruct queue as [|val rest]; [cbn in Hlen; lia|].
    cbn [assemble].
    rewrite (bind_return _ _ _ _ _ (subscript_live _ _ _ Hq)).
    rewrite (bind_return _ _ _ _ _ (remove_head_run _ _ _ _ Hq)).
    rewrite (IH h rest); cbn.
    + rewrite insert_insert_eq, <- !app_assoc. reflexivity.
    + apply lookup_insert_eq.
    + cbn in Hlen. lia.
Qed.

(** ** The wait loop *)

Lemma get_notifications_run (bk : backend) (w : world) :
  BackendObject.get_notifications bk w =
  (Return (polled_ref bk (log_call CallGetNotifications w)),
   log_call CallGetNotifications w).
Proof.
  unfold BackendObject.get_notifications, polled_ref, bind, modify, gets, ret.
  cbn. destruct (bk_shares_inbox bk); reflexivity.
Qed.

Lemma slept_round (bk : backend) (k : nat) :
  forall w, slept bk (round bk w) k = round bk (slept bk w k).
Proof.
  induction k as [|k IH]; intros w; [reflexivity|].
  cbn [slept]. fold (round bk (slept bk (round bk w) k)).
  rewrite IH. reflexivity.
Qed.

Lemma held_ref_round (bk : backend) (first : notifications_ref) (w : world)
    (k : nat) :
  held_ref bk (polled_ref bk (round bk w)) (round bk w) k =
  held_ref bk first w (S k).
Proof.
  destruct k as [|k]; [reflexivity|].
  cbn [held_ref]. rewrite slept_round. reflexivity.
Qed.

Lemma slept_frame (bk : backend) (w : world) (k : nat) :
  callbacks (slept bk w k) = callbacks w /\
  invoked (slept bk w k) = invoked w /\
  rssi_reads (slept bk w k) = rssi_reads w /\
  sleeps (slept bk w k) = (sleeps w ++ repeat quantum k)%list /\
  calls (slept bk w k) = (calls w ++ repeat CallGetNotifications k)%list.
Proof.
  induction k as [|k (Hc & Hi & Hr & Hs & Hl)]; cbn.
  - rewrite !app_nil_r. auto.
  - rewrite Hc, Hi, Hr, Hs, Hl.
    rewrite !repeat_cons, !app_assoc. auto.
Qed.

Lemma slept_inbox (bk : backend) (w0 w : world) (k : nat) :
  inbox w = inbox w0 -> sleeps w = sleeps w0 ->
  inbox (slept bk w k) = polled_inbox bk w0 k.
Proof.
  intros Hbox Hsleeps. induction k as [|k IH]; [exact Hbox|].
  cbn. rewrite IH. f_equal. f_equal.
  destruct (slept_frame bk w k) as (_ & _ & _ & Hs & _).
  rewrite Hs, length_app, repeat_length, Hsleeps. reflexivity.
Qed.

Lemma waited_succ (sec : Q) (j : nat) :
  (sec == waited j)%Q -> (sec + quantum == waited (S j))%Q.
Proof.
  unfold waited, quantum. intros H. rewrite H, Nat2Z.inj_succ.
  unfold Z.succ. rewrite inject_Z_plus. ring.
Qed.

Lemma add_quantum_early (sec t : Q) :
  (sec < t)%Q -> (t <= float_limit)%Q ->
  add_quantum sec = (sec + quantum)%Q.
Proof.
  intros Hearly Hlimit. unfold add_quantum.
  destruct (Qle_bool float_limit sec) eqn:E; [|reflexivity].
  apply Qle_bool_iff in E. lra.
Qed.

Lemma add_quantum_bound (sec : Q) :
  (sec <= add_quantum sec)%Q /\ (add_quantum sec <= sec + quantum)%Q.
Proof.
  unfold add_quantum, quantum.
  destruct (Qle_bool float_limit sec); split; lra.
Qed.

Lemma quarter_division (t : Q) : (t / quantum == t * 4)%Q.
Proof. unfold quantum. field. Qed.

Lemma budget_spent (t sec : Q) (j : nat) :
  (sec == waited j)%Q -> (poll_budget t <= j)%nat -> (t <= sec)%Q.
Proof.
  unfold waited, poll_budget. intros Hsec Hj. rewrite Hsec.
  pose proof (Qle_ceiling (t / quantum)) as Hceil.
  rewrite quarter_division in Hceil at 1.
  assert (Qceiling (t / quantum) <= Z.of_nat j)%Z as Hz by lia.
  rewrite Zle_Qle in Hz.
  set (c := Qceiling (t / quantum)) in *. unfold quantum. lra.
Qed.

Lemma budget_left (t sec : Q) (j : nat) :
  (sec == waited j)%Q -> (sec < t)%Q -> (j < poll_budget t)%nat.
Proof.
  unfold waited, poll_budget. intros Hsec Hlt. rewrite Hsec in Hlt.
  pose proof (Qle_ceiling (t / quantum)) as Hceil.
  rewrite quarter_division in Hceil at 1.
  set (c := Qceiling (t / quantum)) in *.
  assert (inject_Z (Z.of_nat j) < inject_Z c)%Q as Hz
    by (unfold quantum in Hlt; lra).
  rewrite <- Zlt_Qlt in Hz. lia.
Qed.

Lemma ceiling_least (x : Q) (z : Z) :
  (x <= inject_Z z)%Q -> (Qceiling x <= z)%Z.
Proof.
  intros H. rewrite <- (Qceiling_Z z). apply Qceiling_resp_le. exact H.
Qed.

Lemma budget_reached (t : Q) (k : nat) :
  (t <= waited k)%Q -> (poll_budget t <= k)%nat.
Proof.
  unfold waited, poll_budget. intros H.
  assert (Qceiling (t / quantum) <= Z.of_nat k)%Z; [|lia].
  apply ceiling_least. rewrite quarter_division.
  unfold quantum in H. lra.
Qed.

Lemma waited_0 : (waited 0 == 0)%Q.
Proof. reflexivity. Qed.

Lemma wait_round (fuel : nat) (self : device) (handle_recv : option Z)
    (num_packets : Z) (t : Q) (first : notifications_ref) (sec : Q)
    (w : world) (queue : list (list byte)) :
  subscript first handle_recv w = (Return queue, w) ->
  (Z.of_nat (length queue) <? num_packets)%Z = true ->
  Qle_bool t sec = false ->
  wait_for_packets (S fuel) self handle_recv num_packets t first sec w =
  wait_for_packets fuel self handle_recv num_packets t
    (polled_ref (_backend self) (round (_backend self) w)) (add_quantum sec)
    (round (_backend self) w).
Proof.
  intros Hq Hshort Hearly. cbn [wait_for_packets].
  rewrite (bind_return _ _ _ _ _ Hq), Hshort, Hearly.
  unfold bind at 1. unfold sleep at 1.
  unfold bind at 1. rewrite get_notifications_run. reflexivity.
Qed.

Lemma wait_stop (fuel : nat) (self : device) (handle_recv : option Z)
    (num_packets : Z) (t : Q) (first : notifications_ref) (sec : Q)
    (w : world) :
  (subscript first handle_recv w = (Raise KeyError, w) ->
   wait_for_packets fuel self handle_recv num_packets t first sec w =
   (Raise KeyError, w)) /\
  (forall queue,
     subscript first handle_recv w = (Return queue, w) ->
     (Z.of_nat (length queue) <? num_packets)%Z = false ->
     wait_for_packets fuel self handle_recv num_packets t first sec w =
     (Return (first, sec), w)) /\
  (forall queue,
     subscript first handle_recv w = (Return queue, w) ->
     (Z.of_nat (length queue) <? num_packets)%Z = true ->
     Qle_bool t sec = true ->
     wait_for_packets fuel self handle_recv num_packets t first sec w =
     (Raise (NoResponseError "Timed out after %s seconds" sec), w)).
Proof.
  repeat split; intros; destruct fuel; cbn [wait_for_packets];
    try (erewrite bind_raise by eassumption; reflexivity);
    erewrite bind_return by eassumption;
    repeat match goal with H : _ = _ |- _ => rewrite H end; reflexivity.
Qed.

(** Either the loop ends on the spot, or the queue is short and there is
    time left. *)
Lemma wait_now (fuel : nat) (self : device) (handle_recv : option Z)
    (num_packets : Z) (t : Q) (first : notifications_ref) (sec : Q)
    (w : world) :
  loop_ends
    (wait_for_packets fuel self handle_recv num_packets t first sec w)
    self handle_recv num_packets t first w 0 sec \/
  exists queue,
    subscript first handle_recv w = (Return queue, w) /\
    (Z.of_nat (length queue) <? num_packets)%Z = true /\
    Qle_bool t sec = false.
Proof.
  destruct (wait_stop fuel self handle_recv num_packets t first sec w)
    as (Hkey & Hlong & Hlate).
  unfold loop_ends. cbn [slept held_ref]. cbv zeta.
  destruct (subscript_cases first handle_recv w) as [Hq|[queue Hq]].
  { left. left. auto. }
  destruct (Z.of_nat (length queue) <? num_packets)%Z eqn:Hshort.
  2:{ left. right. exists queue. split; [exact Hq|]. left.
      split; [apply Z.ltb_ge; exact Hshort|eauto]. }
  destruct (Qle_bool t sec) eqn:Htime.
  2:{ right. exists queue. auto. }
  left. right. exists queue. split; [exact Hq|]. right.
  split; [apply Z.ltb_lt; exact Hshort|].
  split; [apply Qle_bool_iff; exact Htime|]. split; [left; reflexivity|].
  eauto.
Qed.

(** Started with the counter at [j] quanta and fuel for the rest of the
    budget, the loop ends after [k] more rounds, within the budget, when
    the timeout is one the counter can reach. *)
Lemma wait_loop_outcome (fuel : nat) :
  forall (self : device) (handle_recv : option Z) (num_packets : Z) (t : Q)
         (first : notifications_ref) (sec : Q) (w : world) (j : nat),
    (t <= float_limit)%Q ->
    (sec == waited j)%Q ->
    (poll_budget t - j <= fuel)%nat ->
    exists (k : nat) (sec' : Q),
      (j + k <= Nat.max j (poll_budget t))%nat /\
      (sec' == waited (j + k))%Q /\
      loop_ends
        (wait_for_packets fuel self handle_recv num_packets t first sec w)
        self handle_recv num_packets t first w k sec'.
Proof.
  induction fuel as [|fuel IH];
    intros self handle_recv num_packets t first sec w j Hlimit Hsec Hfuel.
  - destruct (wait_now 0 self handle_recv num_packets t first sec w)
      as [Hend|(queue & Hq & Hshort & Htime)].
    + exists 0%nat, sec. rewrite Nat.add_0_r. split; [lia|]. split; auto.
    + assert (sec < t)%Q as Hearly
        by (apply Qnot_le_lt; intros Hle; apply Qle_bool_iff in Hle;
            congruence).
      pose proof (budget_left _ _ _ Hsec Hearly). lia.
  - destruct (wait_now (S fuel) self handle_recv num_packets t first sec w)
      as [Hend|(queue & Hq & Hshort & Htime)].
    + exists 0%nat, sec. rewrite Nat.add_0_r. split; [lia|]. split; auto.
    + assert (sec < t)%Q as Hearly
        by (apply Qnot_le_lt; intros Hle; apply Qle_bool_iff in Hle;
            congruence).
      pose proof (budget_left _ _ _ Hsec Hearly) as Hleft.
      destruct (IH self handle_recv num_packets t
                  (polled_ref (_backend self) (round (_backend self) w))
                  (sec + quantum)%Q (round (_backend self) w) (S j)
                  Hlimit (waited_succ _ _ Hsec) ltac:(lia))
        as (k & sec' & Hk & Hsec' & Hcases).
      exists (S k), sec'.
      replace (j + S k)%nat with (S j + k)%nat by lia.
      split; [lia|split; [exact Hsec'|]].
      rewrite (wait_round _ _ _ _ _ _ _ _ _ Hq Hshort Htime).
      rewrite (add_quantum_early _ _ Hearly Hlimit).
      unfold loop_ends in *. cbv zeta in *.
      rewrite slept_round, (held_ref_round _ first) in Hcases.
      change (round (_backend self) (slept (_backend self) w k))
        with (slept (_backend self) w (S k)) in Hcases.
      destruct Hcases as [Hcase|(queue' & Hq' & [Hcase|Hcase])].
      * left. exact Hcase.
      * right. exists queue'. split; [exact Hq'|]. left. exact Hcase.
      * right. exists queue'. split; [exact Hq'|]. right.
        destruct Hcase as (Hs & Ht & Hk' & Hrun).
        repeat split; try assumption. right.
        destruct Hk' as [->|Hlt]; [|exact Hlt].
        rewrite Nat.add_0_r in Hsec'.
        rewrite Hsec', <- (waited_succ _ _ Hsec). lra.
Qed.

(** ** Termination *)

Create HintDb total.

Lemma total_ret {A} (a : A) : total (ret a).
Proof. intros w. discriminate. Qed.

Lemma total_raise {A} (e : exn) : total (@raise A e).
Proof. intros w. discriminate. Qed.

Lemma total_modify (f : world -> world) : total (modify f).
Proof. intros w. discriminate. Qed.

Lemma total_gets {A} (f : world -> A) : total (gets f).
Proof. intros w. discriminate. Qed.

Lemma total_bind {A B} (m : M A) (k : A -> M B) :
  total m -> (forall a, total (k a)) -> total (bind m k).
Proof.
  intros Hm Hk w. unfold bind. specialize (Hm w).
  destruct (m w) as [[a|e|] w']; cbn in *; [apply Hk|discriminate|congruence].
Qed.

Lemma total_sleep (bk : backend) (d : Q) : total (sleep bk d).
Proof. intros w. discriminate. Qed.

#[local] Hint Resolve total_ret total_raise total_modify total_gets
  total_sleep : total.
#[local] Hint Extern 2 (total (bind _ _)) =>
  apply total_bind; [|intros ?] : total.
#[local] Hint Extern 3 (total (match ?x with _ => _ end)) =>
  destruct x : total.
#[local] Hint Extern 3 (total (if ?x then _ else _)) => destruct x : total.

Ltac total_by_unfolding := intros; autounfold with total; auto 20 with total.

#[local] Hint Unfold BackendObject.bond BackendObject.encrypt
  BackendObject.run BackendObject.stop BackendObject.disconnect
  BackendObject.connect BackendObject.get_handle BackendObject.char_read
  BackendObject.char_read_uuid BackendObject.char_write
  BackendObject.subscribe BackendObject.get_rssi
  BackendObject.get_notifications BackendObject.remove_notification
  subscript not_implemented _uuid_bytearray _get_handle call_observer
  notify dunder_name : total.

Lemma total_subscript (r : notifications_ref) (h : option Z) :
  total (subscript r h).
Proof. total_by_unfolding. Qed.

Lemma total_get_handle (self : device) (uuid : option string) :
  total (_get_handle self uuid).
Proof. total_by_unfolding. Qed.

Lemma total_remove_notification (h : option Z) (i : nat) :
  total (BackendObject.remove_notification h i).
Proof. total_by_unfolding. Qed.

Lemma total_get_notifications (bk : backend) :
  total (BackendObject.get_notifications bk).
Proof. total_by_unfolding. Qed.

#[local] Hint Resolve total_subscript total_get_handle
  total_remove_notification total_get_notifications : total.

Lemma total_assemble (n : nat) :
  forall h r acc, total (assemble n h r acc).
Proof.
  induction n as [|n IH]; intros h r acc; cbn [assemble];
    auto 10 with total.
Qed.

Lemma total_call_observers (cbs : list observer) (value : list byte) :
  total (call_observers cbs value).
Proof.
  intros w. rewrite call_observers_run. cbn.
  destruct (first_raise cbs value); discriminate.
Qed.

Lemma total_notify (uuid_recv : option string) (value : list byte) :
  total (notify uuid_recv value).
Proof. intros w. rewrite notify_run. apply total_call_observers. Qed.

Lemma loop_ends_total run self handle_recv num_packets t first w k sec' :
  loop_ends run self handle_recv num_packets t first w k sec' ->
  fst run <> OutOfFuel.
Proof.
  unfold loop_ends. cbv zeta.
  intros [[_ ->]|(queue & _ & [[_ ->]|(_ & _ & _ & ->)])]; discriminate.
Qed.

Lemma total_wait_budget (self : device) (handle_recv : option Z)
    (num_packets : Z) (t : Q) (first : notifications_ref) :
  (t <= float_limit)%Q ->
  total (wait_for_packets (poll_budget t) self handle_recv num_packets t
           first 0%Q).
Proof.
  intros Hlimit w.
  destruct (wait_loop_outcome (poll_budget t) self handle_recv num_packets t
              first 0%Q w 0%nat) as (k & sec' & _ & _ & Hends).
  - exact Hlimit.
  - unfold waited. cbn. ring.
  - lia.
  - exact (loop_ends_total _ _ _ _ _ _ _ _ _ Hends).
Qed.

#[local] Hint Resolve total_assemble total_notify total_wait_budget
  total_call_observers : total.

Lemma total_char_write (self : device) (uuid_write : string)
    (value : list byte) (wait_for_response : bool) (num_packets : Z)
    (uuid_recv : option string) (bled112_timeout : Q) :
  (bled112_timeout <= float_limit)%Q ->
  total (char_write self uuid_write value wait_for_response num_packets
           uuid_recv bled112_timeout).
Proof.
  intros Hlimit. unfold char_write. destruct (_backend_type self);
    autounfold with total; auto 30 with total.
Qed.

(** A loop that ends on the spot does so with any fuel. *)
Lemma wait_ends_any_fuel (fuel fuel' : nat) self handle_recv num_packets t
    first sec w :
  loop_ends
    (wait_for_packets fuel self handle_recv num_packets t first sec w)
    self handle_recv num_packets t first w 0 sec ->
  wait_for_packets fuel' self handle_recv num_packets t first sec w =
  wait_for_packets fuel self handle_recv num_packets t first sec w.
Proof.
  intros Hend.
  destruct (wait_stop fuel self handle_recv num_packets t first sec w)
    as (Hk1 & Hl1 & Ht1).
  destruct (wait_stop fuel' self handle_recv num_packets t first sec w)
    as (Hk2 & Hl2 & Ht2).
  unfold loop_ends in Hend. cbn [slept held_ref] in Hend. cbv zeta in Hend.
  destruct Hend as [[Hq _]|(queue & Hq & [[Hlen _]|(Hlen & Hle & _ & _)])].
  - rewrite Hk1, Hk2 by exact Hq. reflexivity.
  - apply Z.ltb_ge in Hlen. rewrite (Hl1 _ Hq Hlen), (Hl2 _ Hq Hlen).
    reflexivity.
  - apply Z.ltb_lt in Hlen. apply Qle_bool_iff in Hle.
    rewrite (Ht1 _ Hq Hlen Hle), (Ht2 _ Hq Hlen Hle). reflexivity.
Qed.

(** More fuel changes nothing once the loop has ended. *)
Lemma wait_fuel_mono (fuel : nat) :
  forall self handle_recv num_packets t first sec w,
    fst (wait_for_packets fuel self handle_recv num_packets t first sec w)
      <> OutOfFuel ->
    wait_for_packets (S fuel) self handle_recv num_packets t first sec w =
    wait_for_packets fuel self handle_recv num_packets t first sec w.
Proof.
  induction fuel as [|fuel IH];
    intros self handle_recv num_packets t first sec w Hrun.
  - destruct (wait_now 0 self handle_recv num_packets t first sec w)
      as [Hend|(queue & Hq & Hshort & Htime)].
    + apply wait_ends_any_fuel. exact Hend.
    + exfalso. apply Hrun. cbn [wait_for_packets].
      rewrite (bind_return _ _ _ _ _ Hq), Hshort, Htime. reflexivity.
  - destruct (wait_now (S fuel) self handle_recv num_packets t first sec w)
      as [Hend|(queue & Hq & Hshort & Htime)].
    + apply wait_ends_any_fuel. exact Hend.
    + rewrite (wait_round fuel _ _ _ _ _ _ _ _ Hq Hshort Htime) in Hrun.
      rewrite (wait_round (S fuel) _ _ _ _ _ _ _ _ Hq Hshort Htime).
      rewrite (wait_round fuel _ _ _ _ _ _ _ _ Hq Hshort Htime).
      apply IH. exact Hrun.
Qed.

Lemma wait_fuel_enough (extra fuel : nat) :
  forall self handle_recv num_packets t first sec w,
    fst (wait_for_packets fuel self handle_recv num_packets t first sec w)
      <> OutOfFuel ->
    wait_for_packets (extra + fuel) self handle_recv num_packets t first sec w
    = wait_for_packets fuel self handle_recv num_packets t first sec w.
Proof.
  induction extra as [|extra IH]; intros; [reflexivity|].
  cbn [Nat.add]. rewrite wait_fuel_mono; [auto|].
  rewrite IH; assumption.
Qed.

(** C10 (as stated) fails: the loop has a third way out.  With no queue
    for the response handle in the inbox, the subscript of the loop
    condition raises [KeyError] at the first evaluation: the loop neither
    leaves to the reassembly nor raises [NoResponseError], and so ends the
    write. *)
Lemma missing_queue_ends_the_wait_with_key_error :
  wait_for_packets (poll_budget 1) Fixture.quiet_device (Some 3) 1 1
    LiveInbox 0%Q Fixture.empty_world =
  (Raise KeyError, Fixture.empty_world) /\
  fst (char_write Fixture.quiet_device Fixture.uuid_tx [x01] true 1
         (Some Fixture.uuid_rx) 1 Fixture.empty_world) = Raise KeyError.
Proof. split; vm_compute; reflexivity. Qed.

(** C10, amended.  The wait loop of [char_write] ends for every timeout of
    at most [2^51] seconds and every behaviour of the inbox.  With fuel for
    [ceil(timeout / 0.25)] rounds or more it never runs out: after [k]
    rounds, [k] at most [ceil(timeout / 0.25)] (so at most that many plus
    one evaluations of the loop condition), each round having slept one
    quantum and added it to the counter, the loop leaves to the reassembly,
    or raises [NoResponseError], or the subscript of its condition raises
    [KeyError] because the polled object has no entry for the handle.  More
    fuel gives the same run.  With a timeout [<= 0] the loop ends at the
    first evaluation of its condition, without a sleep: with [KeyError]
    when there is no queue, with [NoResponseError] when the queue is
    short.  So [char_write] itself returns or raises. *)
Theorem wait_loop_terminates
    (self : device) (handle_recv : option Z) (num_packets : Z) (t : Q)
    (first : notifications_ref) (w : world) (fuel : nat) :
  (t <= float_limit)%Q ->
  (Z.to_nat (Qceiling (t / quantum)) <= fuel)%nat ->
  let run :=
    wait_for_packets fuel self handle_recv num_packets t first 0%Q w in
  (exists (k : nat) (sec' : Q),
     (k <= Z.to_nat (Qceiling (t / quantum)))%nat /\
     (sec' == inject_Z (Z.of_nat k) * quantum)%Q /\
     sleeps (snd run) = (sleeps w ++ repeat quantum k)%list /\
     (fst run = Return (held_ref (_backend self) first w k, sec') \/
      (fst run = Raise (NoResponseError "Timed out after %s seconds" sec') /\
       (t <= sec')%Q) \/
      (fst run = Raise KeyError /\
       fst (subscript (held_ref (_backend self) first w k) handle_recv
              (snd run)) = Raise KeyError))) /\
  run = wait_for_packets (poll_budget t) self handle_recv num_packets t
          first 0%Q w /\
  ((t <= 0)%Q ->
   sleeps (snd run) = sleeps w /\
   (subscript first handle_recv w = (Raise KeyError, w) ->
    run = (Raise KeyError, w)) /\
   (forall queue,
      subscript first handle_recv w = (Return queue, w) ->
      Z.of_nat (length queue) < num_packets ->
      run = (Raise (NoResponseError "Timed out after %s seconds" 0%Q), w))) /\
  (forall uuid_write value wait_for_response uuid_recv w0,
     fst (char_write self uuid_write value wait_for_response num_packets
            uuid_recv t w0) <> OutOfFuel).
Proof.
  intros Hlimit Hfuel run. fold (poll_budget t) in Hfuel |- *.
  assert (run = wait_for_packets (poll_budget t) self handle_recv
                  num_packets t first 0%Q w) as Hrun.
  { subst run. replace fuel with ((fuel - poll_budget t) + poll_budget t)%nat
      by lia.
    apply wait_fuel_enough. apply total_wait_budget. exact Hlimit. }
  destruct (wait_loop_outcome (poll_budget t) self handle_recv num_packets
              t first 0%Q w 0%nat Hlimit) as (k & sec' & Hk & Hsec' & Hends).
  { unfold waited. cbn. ring. }
  { lia. }
  cbn [Nat.add] in Hk, Hsec'.
  destruct (slept_frame (_backend self) w k) as (_ & _ & _ & Hs & _).
  assert (sleeps (snd run) = (sleeps w ++ repeat quantum k)%list) as Hslept.
  { rewrite Hrun. unfold loop_ends in Hends. cbv zeta in Hends.
    destruct Hends as [[_ ->]|(queue & _ & [[_ ->]|(_ & _ & _ & ->)])];
      exact Hs. }
  split; [|split; [exact Hrun|split]].
  - exists k, sec'.
    split; [lia|]. split; [exact Hsec'|]. split; [exact Hslept|].
    rewrite Hrun. unfold loop_ends in Hends. cbv zeta in Hends.
    destruct Hends as [[Hq ->]|(queue & Hq & [[_ ->]|(_ & Ht & _ & ->)])];
      cbn [fst snd].
    + right. right. rewrite Hq. auto.
    + left. reflexivity.
    + right. left. auto.
  - intros Ht.
    destruct (wait_stop fuel self handle_recv num_packets t first 0%Q w)
      as (Hkey & _ & Hlate).
    split; [|split].
    + assert (poll_budget t = 0)%nat as Hzero
        by (apply Nat.le_0_r, budget_reached; rewrite waited_0; exact Ht).
      rewrite Hslept.
      replace k with 0%nat by lia. cbn [repeat]. apply app_nil_r.
    + exact Hkey.
    + intros queue Hq Hshort. apply (Hlate queue Hq).
      * apply Z.ltb_lt. exact Hshort.
      * apply Qle_bool_iff. exact Ht.
  - intros. apply total_char_write. exact Hlimit.
Qed.

Lemma wait_loop_terminates_witness :
  (Z.to_nat (Qceiling (1 / quantum)) <= 4)%nat /\
  wait_for_packets 4 Fixture.quiet_device (Some 3) 2 1 LiveInbox 0%Q
    (Fixture.listening [] []) =
  wait_for_packets (poll_budget 1) Fixture.quiet_device (Some 3) 2 1
    LiveInbox 0%Q (Fixture.listening [] []).
Proof.
  assert (Z.to_nat (Qceiling (1 / quantum)) <= 4)%nat as H
    by (vm_compute; lia).
  assert (1 <= float_limit)%Q as Hlimit
    by (unfold float_limit, Qle; cbn; lia).
  split; [exact H|].
  exact (proj1 (proj2 (wait_loop_terminates Fixture.quiet_device (Some 3) 2 1
                         LiveInbox (Fixture.listening [] []) 4 Hlimit H))).
Defined.

(** A timeout of one second, nothing arriving: four rounds, then the
    error, carrying the four quanta. *)
Example wait_times_out_after_four_rounds :
  wait_for_packets 4 Fixture.quiet_device (Some 3) 2 1 LiveInbox 0%Q
    (Fixture.listening [] []) =
  (Raise (NoResponseError "Timed out after %s seconds"
            (0 + quantum + quantum + quantum + quantum)%Q),
   slept (_backend Fixture.quiet_device) (Fixture.listening [] []) 4).
Proof. vm_compute. reflexivity. Qed.

(** ** A write that waits *)

Lemma get_handle_run (self : device) (uuid : string) (raw : list byte)
    (w : world) :
  _backend_type self = BLED112 ->
  PyText.unhexlify (PyText.replace "-" "" uuid) = inr raw ->
  _get_handle self (Some uuid) w =
  (Return (bk_get_handle (_backend self) (UuidRaw raw)),
   log_call (CallGetHandle (UuidRaw raw)) w).
Proof.
  intros Hkind Hraw. unfold _get_handle, _uuid_bytearray, bind.
  rewrite Hraw, Hkind. reflexivity.
Qed.

(** Up to the loop, a write whose identifiers convert and whose backend
    write succeeds only logs its four backend calls. *)
Lemma await_run (self : device) (uuid_write uuid_recv : string)
    (raw_write raw_recv : list byte) (value : list byte) (num_packets : Z)
    (t : Q) (w : world) :
  _backend_type self = BLED112 ->
  PyText.unhexlify (PyText.replace "-" "" uuid_write) = inr raw_write ->
  PyText.unhexlify (PyText.replace "-" "" uuid_recv) = inr raw_recv ->
  let bk := _backend self in
  let handle_write := bk_get_handle bk (UuidRaw raw_write) in
  let handle_recv := bk_get_handle bk (UuidRaw raw_recv) in
  bk_char_write bk handle_write value = true ->
  let w0 := started raw_write raw_recv handle_write value w in
  await self uuid_write value num_packets (Some uuid_recv) t w =
  (polled <-
     wait_for_packets (poll_budget t) self handle_recv num_packets t
       (polled_ref bk w0) 0%Q;;
   ret (handle_recv, fst polled)) w0.
Proof.
  intros Hkind Hw Hr bk handle_write handle_recv Hok w0. unfold await.
  rewrite (bind_return _ _ _ _ _ (get_handle_run _ _ _ _ Hkind Hw)).
  rewrite (bind_return _ _ _ _ _ (get_handle_run _ _ _ _ Hkind Hr)).
  unfold BackendObject.char_write at 1.
  unfold bind at 1. unfold bind at 1. unfold modify at 1. cbn [fst snd].
  unfold ret at 1. fold bk handle_write. rewrite Hok. cbn [negb].
  rewrite (bind_return _ _ _ _ _ (get_notifications_run _ _)).
  reflexivity.
Qed.

Lemma subscript_polled (bk : backend) (handle : option Z) (w : world) :
  subscript (polled_ref bk w) handle w = subscript LiveInbox handle w.
Proof. unfold polled_ref. destruct (bk_shares_inbox bk); reflexivity. Qed.

Lemma held_ref_polled (bk : backend) (w : world) (k : nat) :
  held_ref bk (polled_ref bk w) w k = polled_ref bk (slept bk w k).
Proof. destruct k; reflexivity. Qed.

Lemma polled_subscript (bk : backend) (w0 w : world) (h : Z) (k : nat)
    (queue : list (list byte)) :
  inbox w0 = inbox w -> sleeps w0 = sleeps w ->
  polled_inbox bk w k !! h = Some queue ->
  subscript (held_ref bk (polled_ref bk w0) w0 k) (Some h) (slept bk w0 k) =
  (Return queue, slept bk w0 k).
Proof.
  intros Hbox Hsleeps Hq.
  rewrite held_ref_polled, subscript_polled.
  apply subscript_live. rewrite (slept_inbox bk w w0 k Hbox Hsleeps).
  exact Hq.
Qed.

(** C5 (as stated) fails for a negative timeout: the write below, with a
    timeout of -1 second and nothing arriving, raises [NoResponseError] in
    the first round with 0 seconds waited, a full second, not a quantum,
    above the timeout. *)
Lemma negative_timeout_fails_a_second_late :
  fst (char_write Fixture.quiet_device Fixture.uuid_tx [x01] true 1
         (Some Fixture.uuid_rx) (-1) (Fixture.listening [] [])) =
  Raise (NoResponseError "Timed out after %s seconds" 0%Q) /\
  ~ (0 <= -1 + quantum)%Q.
Proof. split; [vm_compute; reflexivity|]. unfold quantum. lra. Qed.

(** C5, amended.  A BLED112 write that waits with a timeout of at most
    [2^51] seconds, whose identifiers convert, whose backend write succeeds
    and whose inbox at every poll holds a queue for the response handle
    with fewer than [num_packets] entries, raises [NoResponseError]
    carrying the accumulated wait [sec]: [sec] is
    [ceil(timeout / 0.25)] quanta, at least the timeout, less than one
    quantum above it when the timeout is not negative, and 0 when the
    timeout is not positive.  No observer is invoked and nothing is
    removed from the inbox.  In a round the length of the queue is looked
    at first: a queue that is long enough leaves the loop even when the
    time is up. *)
Theorem char_write_times_out
    (self : device) (uuid_write uuid_recv : string)
    (raw_write raw_recv : list byte) (value : list byte) (num_packets : Z)
    (t : Q) (h : Z) (w : world) :
  _backend_type self = BLED112 ->
  0 < num_packets ->
  (t <= float_limit)%Q ->
  PyText.unhexlify (PyText.replace "-" "" uuid_write) = inr raw_write ->
  PyText.unhexlify (PyText.replace "-" "" uuid_recv) = inr raw_recv ->
  bk_get_handle (_backend self) (UuidRaw raw_recv) = Some h ->
  bk_char_write (_backend self)
    (bk_get_handle (_backend self) (UuidRaw raw_write)) value = true ->
  (forall k, exists queue,
      polled_inbox (_backend self) w k !! h = Some queue /\
      Z.of_nat (length queue) < num_packets) ->
  (exists (sec : Q) (w' : world),
     char_write self uuid_write value true num_packets (Some uuid_recv) t w =
     (Raise (NoResponseError "Timed out after %s seconds" sec), w') /\
     (sec == inject_Z (Z.of_nat (Z.to_nat (Qceiling (t / quantum))))
             * quantum)%Q /\
     (t <= sec)%Q /\
     ((0 <= t)%Q -> (sec < t + quantum)%Q) /\
     ((t <= 0)%Q -> (sec == 0)%Q) /\
     invoked w' = invoked w /\
     callbacks w' = callbacks w /\
     inbox w' =
     polled_inbox (_backend self) w (Z.to_nat (Qceiling (t / quantum)))) /\
  (forall fuel first sec w0 queue,
     subscript first (Some h) w0 = (Return queue, w0) ->
     num_packets <= Z.of_nat (length queue) ->
     wait_for_packets fuel self (Some h) num_packets t first sec w0 =
     (Return (first, sec), w0)).
Proof.
  intros Hkind Hn Hlimit Hw Hr Hh Hok Hnever. split.
  2:{ intros fuel first sec w0 queue Hq Hlen.
      destruct (wait_stop fuel self (Some h) num_packets t first sec w0)
        as (_ & Hlong & _).
      apply (Hlong queue Hq). apply Z.ltb_ge. exact Hlen. }
  fold (poll_budget t).
  set (bk := _backend self) in *.
  set (w0 := started raw_write raw_recv
               (bk_get_handle bk (UuidRaw raw_write)) value w).
  destruct (wait_loop_outcome (poll_budget t) self (Some h) num_packets t
              (polled_ref bk w0) 0%Q w0 0%nat Hlimit)
    as (k & sec & Hk & Hsec & Hends).
  { unfold waited. cbn. ring. }
  { lia. }
  cbn [Nat.add] in Hk, Hsec.
  unfold loop_ends in Hends. cbv zeta in Hends. fold bk in Hends.
  rewrite held_ref_polled, subscript_polled in Hends.
  destruct (Hnever k) as (queue & Hqueue & Hshort).
  assert (inbox (slept bk w0 k) = polled_inbox bk w k) as Hbox
    by (apply slept_inbox; reflexivity).
  rewrite (subscript_live h (slept bk w0 k) queue) in Hends
    by (rewrite Hbox; exact Hqueue).
  destruct Hends as [[Hq _]|(queue' & Hq & [[Hlen _]|(_ & Ht & Hk' & Hrun)])];
    [discriminate| injection Hq as <-; lia|].
  assert (k = poll_budget t) as Hkeq.
  { apply Nat.le_antisymm; [lia|].
    apply budget_reached. rewrite <- Hsec. exact Ht. }
  exists sec, (slept bk w0 k). split; [|split; [|split; [|split; [|split]]]].
  - rewrite (char_write_phases _ _ _ _ _ _ _ Hkind Hn).
    apply bind_raise.
    rewrite (await_run self uuid_write uuid_recv raw_write raw_recv value
               num_packets t w Hkind Hw Hr Hok).
    fold bk. rewrite Hh. fold w0. apply bind_raise. exact Hrun.
  - rewrite Hsec, Hkeq. reflexivity.
  - exact Ht.
  - intros Hpos. destruct Hk' as [->|Hlt]; [|exact Hlt].
    rewrite Hsec, waited_0. unfold quantum. lra.
  - intros Hneg. rewrite Hsec.
    assert (poll_budget t = 0)%nat as Hzero
      by (apply Nat.le_0_r, budget_reached; rewrite waited_0; exact Hneg).
    rewrite Hkeq, Hzero. apply waited_0.
  - destruct (slept_frame bk w0 k) as (Hc & Hi & _).
    rewrite Hc, Hi, Hbox, Hkeq. auto.
Qed.

Lemma char_write_times_out_witness :
  exists (sec : Q) (w' : world),
    char_write Fixture.quiet_device Fixture.uuid_tx [x01] true 2
      (Some Fixture.uuid_rx) 1 (Fixture.listening [Fixture.good] []) =
    (Raise (NoResponseError "Timed out after %s seconds" sec), w') /\
    (1 <= sec)%Q /\ (sec < 1 + quantum)%Q /\ invoked w' = [].
Proof.
  destruct (char_write_times_out Fixture.quiet_device Fixture.uuid_tx
              Fixture.uuid_rx (UuidText.decode Fixture.uuid_tx)
              (UuidText.decode Fixture.uuid_rx) [x01] 2 1 3
              (Fixture.listening [Fixture.good] []))
    as [(sec & w' & Hrun & _ & Hge & Hlt & _ & Hinv & _) _].
  - reflexivity.
  - lia.
  - unfold float_limit, Qle. cbn. lia.
  - vm_compute. reflexivity.
  - vm_compute. reflexivity.
  - reflexivity.
  - reflexivity.
  - intros k. exists []. split; [|cbn; lia].
    induction k as [|k IH]; [reflexivity|exact IH].
  - exists sec, w'. repeat split; try assumption.
    apply Hlt. unfold Qle. cbn. lia.
Defined.

(** ** Above the limit of the counter *)

(** [add_quantum] agrees with binary64 addition where it matters: on the
    first step, on the last step that is exact, and at [2^51], where the
    sum is rounded back. *)
Example add_quantum_is_binary64_addition :
  (float_value (binary64_add (S754_zero false) (quanta 1)) ==
   add_quantum 0)%Q /\
  (float_value (binary64_add (quanta (2 ^ 53 - 1)) (quanta 1)) ==
   add_quantum (float_value (quanta (2 ^ 53 - 1))))%Q /\
  (float_value (binary64_add (quanta (2 ^ 53)) (quanta 1)) ==
   add_quantum (float_value (quanta (2 ^ 53))))%Q /\
  (float_value (quanta (2 ^ 53)) == float_limit)%Q /\
  (add_quantum float_limit == float_limit)%Q.
Proof. repeat split; vm_compute; reflexivity. Qed.

(** The counter is a number of quanta, never more than [2^53] of them. *)
Lemma counter_stays_below (sec : Q) (j : Z) :
  (0 <= j <= 2 ^ 53)%Z -> (sec == inject_Z j * quantum)%Q ->
  exists j', (0 <= j' <= 2 ^ 53)%Z /\
             (add_quantum sec == inject_Z j' * quantum)%Q.
Proof.
  intros Hj Hsec. unfold add_quantum.
  destruct (Qle_bool float_limit sec) eqn:E; [exists j; auto|].
  assert (sec < float_limit)%Q as Hlt
    by (apply Qnot_le_lt; intros Hle; apply Qle_bool_iff in Hle; congruence).
  assert (inject_Z j < inject_Z (2 ^ 53))%Q as Hz.
  { assert (inject_Z (2 ^ 53) == float_limit * 4)%Q as -> by reflexivity.
    unfold quantum in Hsec. lra. }
  rewrite <- Zlt_Qlt in Hz.
  exists (j + 1)%Z. split; [lia|].
  rewrite inject_Z_plus, Hsec. unfold quantum. ring.
Qed.

Lemma wait_goes_on (fuel : nat) :
  forall (self : device) (h : Z) (num_packets : Z) (t : Q)
         (first : notifications_ref) (sec : Q) (w : world) (j : Z),
    (float_limit < t)%Q ->
    (0 <= j <= 2 ^ 53)%Z -> (sec == inject_Z j * quantum)%Q ->
    (forall k, exists queue,
        subscript (held_ref (_backend self) first w k) (Some h)
          (slept (_backend self) w k) =
        (Return queue, slept (_backend self) w k) /\
        Z.of_nat (length queue) < num_packets) ->
    fst (wait_for_packets fuel self (Some h) num_packets t first sec w) =
    OutOfFuel.
Proof.
  induction fuel as [|fuel IH];
    intros self h num_packets t first sec w j Hlimit Hj Hsec Hshort;
    destruct (Hshort 0%nat) as (queue & Hq & Hlen);
    cbn [held_ref slept] in Hq; apply Z.ltb_lt in Hlen;
    assert (Qle_bool t sec = false) as Htime.
  1,3: destruct (Qle_bool t sec) eqn:E; [|reflexivity];
       apply Qle_bool_iff in E;
       assert (inject_Z j <= inject_Z (2 ^ 53))%Q as Hz
         by (rewrite <- Zle_Qle; lia);
       assert (inject_Z (2 ^ 53) == float_limit * 4)%Q as Hfour
         by reflexivity;
       unfold quantum in Hsec; lra.
  - cbn [wait_for_packets].
    rewrite (bind_return _ _ _ _ _ Hq), Hlen, Htime. reflexivity.
  - rewrite (wait_round fuel _ _ _ _ _ _ _ _ Hq Hlen Htime).
    destruct (counter_stays_below sec j Hj Hsec) as (j' & Hj' & Hsec').
    apply (IH _ _ _ _ _ _ _ j' Hlimit Hj' Hsec').
    intros k. rewrite slept_round, (held_ref_round _ first).
    exact (Hshort (S k)).
Qed.

(** The bound on the timeout is needed.  The counter stops at [2^51]: with
    a timeout above that and a queue that stays short, the time is never
    up, and the loop makes as many rounds as it is given fuel for. *)
Lemma wait_has_no_end_above_float_limit
    (self : device) (h : Z) (num_packets : Z) (t : Q) (w : world) :
  (float_limit < t)%Q ->
  (forall k, exists queue,
      polled_inbox (_backend self) w k !! h = Some queue /\
      Z.of_nat (length queue) < num_packets) ->
  forall fuel,
    fst (wait_for_packets fuel self (Some h) num_packets t
           (polled_ref (_backend self) w) 0%Q w) = OutOfFuel.
Proof.
  intros Hlimit Hshort fuel.
  apply (wait_goes_on fuel self h num_packets t _ 0%Q w 0%Z Hlimit).
  - split; [lia|]. apply Z.pow_nonneg. lia.
  - reflexivity.
  - intros k. destruct (Hshort k) as (queue & Hq & Hlen).
    exists queue. split; [|exact Hlen].
    apply (polled_subscript (_backend self) w w); [reflexivity..|exact Hq].
Qed.

(** ** Reassembly and dispatch at the end of a write *)

Lemma bind_returned {A B} (m : M A) (k : A -> M B) (w w' : world) (b : B) :
  bind m k w = (Return b, w') ->
  exists a w1, m w = (Return a, w1) /\ k a w1 = (Return b, w').
Proof.
  unfold bind. destruct (m w) as [[a|e|] w1]; try discriminate. eauto.
Qed.

(** A loop that returns has made some number of rounds and found a queue
    that is long enough, whatever the timeout. *)
Lemma wait_returned (fuel : nat) :
  forall (self : device) (handle_recv : option Z) (num_packets : Z) (t : Q)
         (first : notifications_ref) (sec : Q) (w : world)
         (held : notifications_ref) (sec' : Q) (w' : world),
    wait_for_packets fuel self handle_recv num_packets t first sec w =
    (Return (held, sec'), w') ->
    exists (k : nat) (queue : list (list byte)),
      w' = slept (_backend self) w k /\
      held = held_ref (_backend self) first w k /\
      subscript held handle_recv w' = (Return queue, w') /\
      num_packets <= Z.of_nat (length queue).
Proof.
  induction fuel as [|fuel IH];
    intros self handle_recv num_packets t first sec w held sec' w' Hrun.
  - destruct (wait_now 0 self handle_recv num_packets t first sec w)
      as [Hend|(queue & Hq & Hshort & Htime)].
    + unfold loop_ends in Hend. cbn [slept held_ref] in Hend.
      cbv zeta in Hend. rewrite Hrun in Hend.
      destruct Hend as [[_ H]|(queue & Hq & [[Hlen H]|(_ & _ & _ & H)])];
        try discriminate.
      injection H as -> _ ->. exists 0%nat, queue. auto.
    + cbn [wait_for_packets] in Hrun.
      rewrite (bind_return _ _ _ _ _ Hq), Hshort, Htime in Hrun.
      discriminate.
  - destruct (wait_now (S fuel) self handle_recv num_packets t first sec w)
      as [Hend|(queue & Hq & Hshort & Htime)].
    + unfold loop_ends in Hend. cbn [slept held_ref] in Hend.
      cbv zeta in Hend. rewrite Hrun in Hend.
      destruct Hend as [[_ H]|(queue & Hq & [[Hlen H]|(_ & _ & _ & H)])];
        try discriminate.
      injection H as -> _ ->. exists 0%nat, queue. auto.
    + rewrite (wait_round _ _ _ _ _ _ _ _ _ Hq Hshort Htime) in Hrun.
      apply IH in Hrun as (k & queue' & -> & -> & Hq' & Hlen).
      exists (S k), queue'.
      rewrite slept_round, (held_ref_round _ first) in *.
      change (round (_backend self) (slept (_backend self) w k))
        with (slept (_backend self) w (S k)) in *.
      auto.
Qed.

(** When the wait is over, the reference in hand is the one a poll in the
    final state yields, and the queue it shows is long enough. *)
Lemma await_returned (self : device) (uuid_write : string)
    (value : list byte) (num_packets : Z) (uuid_recv : option string)
    (t : Q) (w w1 : world) (handle_recv : option Z)
    (held : notifications_ref) :
  await self uuid_write value num_packets uuid_recv t w =
  (Return (handle_recv, held), w1) ->
  held = polled_ref (_backend self) w1 /\
  exists h queue,
    handle_recv = Some h /\ inbox w1 !! h = Some queue /\
    num_packets <= Z.of_nat (length queue).
Proof.
  unfold await. intros H.
  apply bind_returned in H as (handle_write & w2 & _ & H).
  apply bind_returned in H as (handle_recv' & w3 & _ & H).
  apply bind_returned in H as (ok & w4 & _ & H).
  destruct ok; cbn [negb] in H; [|discriminate].
  apply bind_returned in H as (first & w5 & Hpoll & H).
  apply bind_returned in H as ([held' sec] & w6 & Hwait & H).
  injection H as -> -> ->.
  rewrite get_notifications_run in Hpoll. injection Hpoll as <- <-.
  set (w5 := log_call CallGetNotifications w4) in *.
  apply wait_returned in Hwait as (k & queue & -> & -> & Hq & Hlen).
  rewrite held_ref_polled in *. rewrite subscript_polled in Hq.
  split; [reflexivity|].
  revert Hq. unfold subscript, bind, gets. cbn.
  destruct handle_recv as [h|]; [|discriminate].
  destruct (inbox _ !! h) as [queue'|] eqn:Hbox; [|discriminate].
  intros Hq. injection Hq as ->. eauto.
Qed.

(** The end of a write that got through the wait, on a backend that hands
    out its inbox: the first [num_packets] entries leave the queue and
    their concatenation goes to the observers, until one raises. *)
Lemma char_write_after_wait (self : device) (uuid_write : string)
    (value : list byte) (num_packets : Z) (uuid_recv : option string)
    (t : Q) (w w1 : world) (h : Z) (held : notifications_ref)
    (queue : list (list byte)) :
  _backend_type self = BLED112 ->
  0 < num_packets ->
  bk_shares_inbox (_backend self) = true ->
  await self uuid_write value num_packets uuid_recv t w =
  (Return (Some h, held), w1) ->
  inbox w1 !! h = Some queue ->
  let n := Z.to_nat num_packets in
  let cbs := default [] (uuid_recv ≫= fun u => callbacks w1 !! u) in
  let value_list := concat (take n queue) in
  char_write self uuid_write value true num_packets uuid_recv t w =
  (outcome_of (first_raise cbs value_list),
   World (callbacks w1) (<[h := drop n queue]> (inbox w1))
         (calls w1 ++ repeat (CallRemoveNotification (Some h) 0) n)
         (invoked w1 ++ map (fun cb => (cb, value_list))
                            (reached cbs value_list))
         (sleeps w1) (rssi_reads w1)).
Proof.
  intros Hkind Hn Hshares Hawait Hq n cbs value_list.
  destruct (await_returned _ _ _ _ _ _ _ _ _ _ Hawait)
    as (Hheld & h' & queue' & Hh & Hq' & Hlen).
  injection Hh as <-. rewrite Hq in Hq'. injection Hq' as <-.
  unfold polled_ref in Hheld. rewrite Hshares in Hheld. subst held.
  rewrite (char_write_phases _ _ _ _ _ _ _ Hkind Hn).
  rewrite (bind_return _ _ _ _ _ Hawait). cbn [fst snd].
  rewrite (bind_return _ _ _ _ _
             (assemble_live n h queue [] w1 Hq ltac:(subst n; lia))).
  rewrite notify_run, call_observers_run. reflexivity.
Qed.

(** ** What each step leaves alone *)

Create HintDb frame.

Section Frame.

Context {X : Type} (f : world -> X).

Lemma keeps_ret {A} (a : A) : keeps f (ret a).
Proof. intros w. reflexivity. Qed.

Lemma keeps_raise {A} (e : exn) : keeps f (@raise A e).
Proof. intros w. reflexivity. Qed.

Lemma keeps_out_of_fuel {A} : keeps f (@out_of_fuel A).
Proof. intros w. reflexivity. Qed.

Lemma keeps_gets {A} (g : world -> A) : keeps f (gets g).
Proof. intros w. reflexivity. Qed.

Lemma keeps_modify (g : world -> world) :
  (forall w, f (g w) = f w) -> keeps f (modify g).
Proof. intros H w. apply H. Qed.

Lemma keeps_bind {A B} (m : M A) (k : A -> M B) :
  keeps f m -> (forall a, keeps f (k a)) -> keeps f (bind m k).
Proof.
  intros Hm Hk w. unfold bind. specialize (Hm w).
  destruct (m w) as [[a|e|] w']; cbn in *; [|assumption..].
  rewrite Hk. exact Hm.
Qed.

End Frame.

#[local] Hint Resolve keeps_ret keeps_raise keeps_out_of_fuel keeps_gets
  : frame.
#[local] Hint Extern 2 (keeps _ (bind _ _)) =>
  apply keeps_bind; [|intros ?] : frame.
#[local] Hint Extern 2 (keeps _ (modify _)) =>
  apply keeps_modify; intros ?; reflexivity : frame.
#[local] Hint Extern 3 (keeps _ (match ?x with _ => _ end)) =>
  destruct x : frame.
#[local] Hint Extern 3 (keeps _ (if ?x then _ else _)) => destruct x : frame.
#[local] Hint Extern 1 (keeps _ (sleep _ _)) =>
  intros ?; reflexivity : frame.

#[local] Hint Unfold BackendObject.bond BackendObject.encrypt
  BackendObject.run BackendObject.stop BackendObject.disconnect
  BackendObject.connect BackendObject.get_handle BackendObject.char_read
  BackendObject.char_read_uuid BackendObject.char_write
  BackendObject.subscribe BackendObject.get_rssi
  BackendObject.get_notifications BackendObject.remove_notification
  subscript not_implemented _uuid_bytearray _get_handle dunder_name
  bond connect char_read encrypt run stop forget : frame.

Ltac frame := intros; autounfold with frame; auto 30 with frame.

(** The registry is written by [subscribe] alone. *)
Lemma wait_keeps_callbacks (fuel : nat) :
  forall self h n t first sec,
    keeps callbacks (wait_for_packets fuel self h n t first sec).
Proof.
  induction fuel as [|fuel IH]; intros; cbn [wait_for_packets]; frame.
Qed.

Lemma assemble_keeps_callbacks (n : nat) :
  forall h r acc, keeps callbacks (assemble n h r acc).
Proof. induction n as [|n IH]; intros; cbn [assemble]; frame. Qed.

Lemma call_observers_keeps_callbacks (cbs : list observer)
    (value : list byte) : keeps callbacks (call_observers cbs value).
Proof. intros w. rewrite call_observers_run. reflexivity. Qed.

Lemma notify_keeps_callbacks (uuid_recv : option string)
    (value : list byte) : keeps callbacks (notify uuid_recv value).
Proof. intros w. rewrite notify_run. apply call_observers_keeps_callbacks. Qed.

Lemma rssi_rounds_keeps_callbacks (n : nat) (self : device) :
  keeps callbacks (rssi_rounds n self).
Proof. induction n as [|n IH]; cbn [rssi_rounds]; frame. Qed.

#[local] Hint Resolve wait_keeps_callbacks assemble_keeps_callbacks
  notify_keeps_callbacks rssi_rounds_keeps_callbacks : frame.

Lemma char_write_keeps_callbacks (self : device) (uuid_write : string)
    (value : list byte) (wait_for_response : bool) (num_packets : Z)
    (uuid_recv : option string) (t : Q) :
  keeps callbacks
    (char_write self uuid_write value wait_for_response num_packets
       uuid_recv t).
Proof. unfold char_write. frame. Qed.

Lemma get_rssi_keeps_callbacks (self : device) :
  keeps callbacks (get_rssi self).
Proof. unfold get_rssi. frame. Qed.

(** The wait itself reaches no observer. *)
Lemma wait_keeps_invoked (fuel : nat) :
  forall self h n t first sec,
    keeps invoked (wait_for_packets fuel self h n t first sec).
Proof.
  induction fuel as [|fuel IH]; intros; cbn [wait_for_packets]; frame.
Qed.

#[local] Hint Resolve wait_keeps_invoked : frame.

Lemma await_keeps_invoked self uuid_write value num_packets uuid_recv t :
  keeps invoked (await self uuid_write value num_packets uuid_recv t).
Proof. unfold await. frame. Qed.

Lemma await_keeps_callbacks self uuid_write value num_packets uuid_recv t :
  keeps callbacks (await self uuid_write value num_packets uuid_recv t).
Proof. unfold await. frame. Qed.

(** C4 (as stated) fails when an observer raises: two packets are waiting,
    [bad] is registered before [good]; the two packets are consumed, [bad]
    receives their concatenation and raises, and [good] receives nothing. *)
Lemma raising_observer_starves_the_next :
  let w := Fixture.listening [Fixture.bad; Fixture.good]
             [[x01; x02]; [x03; x04]] in
  let run := char_write Fixture.quiet_device Fixture.uuid_tx [x00] true 2
               (Some Fixture.uuid_rx) 1 w in
  inbox (snd run) !! 3 = Some [] /\
  invoked (snd run) = [(Fixture.bad, [x01; x02; x03; x04])] /\
  ~ (forall cb, In cb [Fixture.bad; Fixture.good] ->
                In (cb, [x01; x02; x03; x04]) (invoked (snd run))).
Proof.
  cbv zeta.
  assert (invoked
            (snd (char_write Fixture.quiet_device Fixture.uuid_tx [x00] true
                    2 (Some Fixture.uuid_rx) 1
                    (Fixture.listening [Fixture.bad; Fixture.good]
                       [[x01; x02]; [x03; x04]]))) =
          [(Fixture.bad, [x01; x02; x03; x04])]) as Hinv
    by (vm_compute; reflexivity).
  split; [vm_compute; reflexivity|]. split; [exact Hinv|].
  intros Hall. specialize (Hall Fixture.good (or_intror (or_introl eq_refl))).
  rewrite Hinv in Hall. destruct Hall as [Heq|[]].
  discriminate Heq.
Qed.

(** C4, amended.  On a backend that hands out its inbox, a write that gets
    through the wait and finds at least [num_packets] entries queued for
    the response handle removes exactly the first [num_packets] of them, by
    [num_packets] removals at index 0, leaving the later entries and the
    other queues as they were.  The concatenation of the removed entries,
    in arrival order, is what the observers of the response identifier are
    called with, once each in registration order, up to and including the
    first that raises; when none raises, every registered observer is
    called exactly once and the write returns. *)
Theorem char_write_reassembles_head_of_queue
    (self : device) (uuid_write : string) (value : list byte)
    (num_packets : Z) (uuid_recv : option string) (t : Q) (w w1 : world)
    (h : Z) (held : notifications_ref) (queue : list (list byte)) :
  _backend_type self = BLED112 ->
  0 < num_packets ->
  bk_shares_inbox (_backend self) = true ->
  await self uuid_write value num_packets uuid_recv t w =
  (Return (Some h, held), w1) ->
  inbox w1 !! h = Some queue ->
  num_packets <= Z.of_nat (length queue) ->
  let n := Z.to_nat num_packets in
  let cbs := default [] (uuid_recv ≫= fun u => callbacks w !! u) in
  let value_list := concat (take n queue) in
  let run := char_write self uuid_write value true num_packets uuid_recv t w in
  fst run = outcome_of (first_raise cbs value_list) /\
  inbox (snd run) = <[h := drop n queue]> (inbox w1) /\
  calls (snd run) =
    (calls w1 ++ repeat (CallRemoveNotification (Some h) 0) n)%list /\
  invoked (snd run) =
    (invoked w ++ map (fun cb => (cb, value_list)) (reached cbs value_list))
    %list /\
  (Forall (fun cb => ob_body cb value_list = None) cbs ->
   fst run = Return tt /\
   invoked (snd run) =
     (invoked w ++ map (fun cb => (cb, value_list)) cbs)%list).
Proof.
  intros Hkind Hn Hshares Hawait Hq Hlen. cbv zeta.
  pose proof (await_keeps_callbacks self uuid_write value num_packets
                uuid_recv t w) as Hcb.
  pose proof (await_keeps_invoked self uuid_write value num_packets
                uuid_recv t w) as Hinv.
  rewrite Hawait in Hcb, Hinv. cbn [snd] in Hcb, Hinv.
  rewrite <- Hcb, <- Hinv.
  rewrite (char_write_after_wait _ _ _ _ _ _ _ _ _ _ _
             Hkind Hn Hshares Hawait Hq).
  cbn [fst snd callbacks inbox calls invoked].
  do 4 (split; [reflexivity|]).
  intros Hquiet. apply reached_all in Hquiet as [Hr Hf].
  rewrite Hr, Hf. split; reflexivity.
Qed.

Lemma char_write_reassembles_head_of_queue_witness :
  let w := Fixture.listening [Fixture.good; Fixture.other] [] in
  let run := char_write Fixture.answering_device Fixture.uuid_tx [x00] true 2
               (Some Fixture.uuid_rx) 1 w in
  fst run = Return tt /\
  inbox (snd run) = {[ 3 := [] ]} /\
  invoked (snd run) =
    [(Fixture.good, [x01; x02; x03; x04]);
     (Fixture.other, [x01; x02; x03; x04])].
Proof.
  cbv zeta.
  set (w := Fixture.listening [Fixture.good; Fixture.other] []).
  set (ready := await Fixture.answering_device Fixture.uuid_tx [x00] 2
                  (Some Fixture.uuid_rx) 1 w).
  assert (ready = (Return (Some 3, LiveInbox), snd ready)) as Hready
    by (vm_compute; reflexivity).
  assert (inbox (snd ready) !! 3 = Some [[x01; x02]; [x03; x04]]) as Hq
    by (vm_compute; reflexivity).
  destruct (char_write_reassembles_head_of_queue Fixture.answering_device
              Fixture.uuid_tx [x00] 2 (Some Fixture.uuid_rx) 1 w (snd ready)
              3 LiveInbox [[x01; x02]; [x03; x04]] eq_refl ltac:(lia) eq_refl
              Hready Hq ltac:(cbn; lia))
    as (_ & Hbox & _ & _ & Hall).
  destruct Hall as [Hret Hinv].
  { repeat constructor. }
  split; [exact Hret|]. split; [|exact Hinv].
  rewrite Hbox. vm_compute. reflexivity.
Defined.

(** What a backend that hands out copies would do: the loop reads the head
    of its copy each time while the backend removes two entries. *)
Example copied_inbox_repeats_the_head :
  let w := Fixture.listening [Fixture.good] [[x01; x02]; [x03; x04]] in
  let run := char_write Fixture.copying_device Fixture.uuid_tx [x00] true 2
               (Some Fixture.uuid_rx) 1 w in
  inbox (snd run) !! 3 = Some [] /\
  invoked (snd run) = [(Fixture.good, [x01; x02; x01; x02])].
Proof. split; vm_compute; reflexivity. Qed.

Lemma assemble_keeps_invoked (n : nat) :
  forall h r acc, keeps invoked (assemble n h r acc).
Proof. induction n as [|n IH]; intros; cbn [assemble]; frame. Qed.

(** C2 (as stated) fails: [bad] is registered before [good] and raises;
    the exception leaves [char_write] and [good] is never called. *)
Lemma later_observer_is_not_called :
  let w := Fixture.listening [Fixture.bad; Fixture.good] [[x01]] in
  let run := char_write Fixture.quiet_device Fixture.uuid_tx [x00] true 1
               (Some Fixture.uuid_rx) 1 w in
  callbacks w !! Fixture.uuid_rx = Some [Fixture.bad; Fixture.good] /\
  fst run = Raise (Exception_ "boom") /\
  ~ (exists value, In (Fixture.good, value) (invoked (snd run))).
Proof.
  cbv zeta.
  assert (invoked
            (snd (char_write Fixture.quiet_device Fixture.uuid_tx [x00] true
                    1 (Some Fixture.uuid_rx) 1
                    (Fixture.listening [Fixture.bad; Fixture.good] [[x01]])))
          = [(Fixture.bad, [x01])]) as Hinv
    by (vm_compute; reflexivity).
  split; [vm_compute; reflexivity|]. split; [vm_compute; reflexivity|].
  rewrite Hinv. intros [value [Heq|[]]]. discriminate Heq.
Qed.

(** C2, amended.  After reassembly the observers registered for the
    response identifier are called with the reassembled value in
    registration order.  If none raises, all are called and the write
    returns.  An exception raised by an observer is not caught: it leaves
    [char_write], and the observers registered after that one are not
    called. *)
Theorem dispatch_runs_in_order_until_a_raise
    (self : device) (uuid_write uuid_recv : string) (value : list byte)
    (num_packets : Z) (t : Q) (w w1 w2 : world)
    (ready : option Z * notifications_ref) (value_list : list byte)
    (cbs : list observer) :
  _backend_type self = BLED112 ->
  0 < num_packets ->
  await self uuid_write value num_packets (Some uuid_recv) t w =
  (Return ready, w1) ->
  assemble (Z.to_nat num_packets) (fst ready) (snd ready) [] w1 =
  (Return value_list, w2) ->
  callbacks w !! uuid_recv = Some cbs ->
  let run :=
    char_write self uuid_write value true num_packets (Some uuid_recv) t w in
  let called (l : list observer) :=
    (invoked w ++ map (fun cb => (cb, value_list)) l)%list in
  (Forall (fun cb => ob_body cb value_list = None) cbs ->
   fst run = Return tt /\ invoked (snd run) = called cbs) /\
  (forall before cb after e,
     cbs = (before ++ cb :: after)%list ->
     Forall (fun cb => ob_body cb value_list = None) before ->
     ob_body cb value_list = Some e ->
     fst run = Raise e /\ invoked (snd run) = called (before ++ [cb])%list).
Proof.
  intros Hkind Hn Hawait Hassemble Hcbs. cbv zeta.
  pose proof (await_keeps_callbacks self uuid_write value num_packets
                (Some uuid_recv) t w) as Hc1.
  pose proof (await_keeps_invoked self uuid_write value num_packets
                (Some uuid_recv) t w) as Hi1.
  rewrite Hawait in Hc1, Hi1. cbn [snd] in Hc1, Hi1.
  pose proof (assemble_keeps_callbacks (Z.to_nat num_packets) (fst ready)
                (snd ready) [] w1) as Hc2.
  pose proof (assemble_keeps_invoked (Z.to_nat num_packets) (fst ready)
                (snd ready) [] w1) as Hi2.
  rewrite Hassemble in Hc2, Hi2. cbn [snd] in Hc2, Hi2.
  rewrite (char_write_phases _ _ _ _ _ _ _ Hkind Hn).
  rewrite (bind_return _ _ _ _ _ Hawait).
  rewrite (bind_return _ _ _ _ _ Hassemble).
  rewrite notify_run, call_observers_run. cbn [mbind option_bind].
  rewrite Hc2, Hc1, Hcbs, Hi2, Hi1. cbn [default from_option id fst snd invoked].
  split.
  - intros Hquiet. apply reached_all in Hquiet as [Hr Hf].
    rewrite Hr, Hf. split; reflexivity.
  - intros before cb after e -> Hquiet Hraises.
    destruct (reached_until before after cb value_list e Hquiet Hraises)
      as [Hr Hf].
    rewrite Hr, Hf. split; reflexivity.
Qed.

Lemma dispatch_runs_in_order_until_a_raise_witness :
  let w := Fixture.listening [Fixture.good; Fixture.bad; Fixture.other] [] in
  let run := char_write Fixture.answering_device Fixture.uuid_tx [x00] true 2
               (Some Fixture.uuid_rx) 1 w in
  fst run = Raise (Exception_ "boom") /\
  invoked (snd run) =
    [(Fixture.good, [x01; x02; x03; x04]);
     (Fixture.bad, [x01; x02; x03; x04])].
Proof.
  cbv zeta.
  set (w := Fixture.listening [Fixture.good; Fixture.bad; Fixture.other] []).
  set (ready := await Fixture.answering_device Fixture.uuid_tx [x00] 2
                  (Some Fixture.uuid_rx) 1 w).
  assert (ready = (Return (Some 3, LiveInbox), snd ready)) as Hready
    by (vm_compute; reflexivity).
  set (gathered := assemble (Z.to_nat 2) (Some 3) LiveInbox [] (snd ready)).
  assert (gathered = (Return [x01; x02; x03; x04], snd gathered)) as Hgathered
    by (vm_compute; reflexivity).
  exact (proj2 (dispatch_runs_in_order_until_a_raise Fixture.answering_device
                  Fixture.uuid_tx Fixture.uuid_rx [x00] 2 1 w (snd ready)
                  (snd gathered) (Some 3, LiveInbox) [x01; x02; x03; x04]
                  [Fixture.good; Fixture.bad; Fixture.other]
                  eq_refl ltac:(lia) Hready Hgathered eq_refl)
           [Fixture.good] Fixture.bad [Fixture.other] (Exception_ "boom")
           eq_refl ltac:(repeat constructor) eq_refl).
Defined.

(** ** The callback registry *)

Lemma register_appends (uuid : string) (cb : observer)
    (registry : gmap string (list observer)) :
  register uuid cb registry =
  <[uuid := (default [] (registry !! uuid) ++ [cb])%list]> registry.
Proof.
  unfold register. destruct (registry !! uuid) as [cbs|] eqn:H.
  - rewrite H. reflexivity.
  - rewrite lookup_insert_eq, insert_insert_eq. reflexivity.
Qed.

(** [subscribe] either leaves the registry alone or, returning normally on
    a BLED112 backend, registers its callback. *)
Lemma subscribe_registry (self : device) (uuid : string)
    (callback : option observer) (indication : bool) (w : world) :
  let run := subscribe self uuid callback indication w in
  (fst run <> Return tt \/ _backend_type self <> BLED112) /\
  callbacks (snd run) = callbacks w \/
  exists cb,
    callback = Some cb /\ _backend_type self = BLED112 /\
    fst run = Return tt /\
    callbacks (snd run) = register uuid cb (callbacks w).
Proof.
  cbv zeta. destruct callback as [cb|]; [|left; split; [left|]; easy].
  unfold subscribe, dunder_name. unfold bind at 1.
  destruct (ob_name cb) as [name|]; [|left; split; [left|]; easy].
  cbn [ret].
  destruct (_backend_type self) eqn:Hkind.
  - unfold _uuid_bytearray.
    destruct (PyText.unhexlify _) as [[]|raw]; cbn;
      try (left; split; [left|]; easy).
    right. exists cb. auto.
  - left. split; [right|]; easy.
  - left. split; [right|]; easy.
Qed.

Lemma perform_grows (self : device) (op : operation) (w : world)
    (uuid : string) (cbs : list observer) :
  callbacks w !! uuid = Some cbs ->
  exists more,
    callbacks (snd (perform self op w)) !! uuid = Some (cbs ++ more)%list.
Proof.
  intros Hcbs.
  assert (keeps callbacks (perform self op) ->
          exists more,
            callbacks (snd (perform self op w)) !! uuid =
            Some (cbs ++ more)%list) as Hkept.
  { intros Hkeeps. exists []. rewrite Hkeeps, app_nil_r. exact Hcbs. }
  destruct op; cbn [perform] in *.
  1-8: apply Hkept.
  1-3, 5, 7-8: frame.
  - apply char_write_keeps_callbacks.
  - unfold forget. apply keeps_bind; [apply get_rssi_keeps_callbacks|].
    intros ?. apply keeps_ret.
  - destruct (subscribe_registry self uuid0 callback indication w)
      as [[_ Hsame]|(cb & _ & _ & _ & Hreg)].
    + exists []. rewrite Hsame, app_nil_r. exact Hcbs.
    + rewrite Hreg, register_appends.
      destruct (decide (uuid0 = uuid)) as [->|Hne].
      * exists [cb]. rewrite lookup_insert_eq, Hcbs. reflexivity.
      * exists []. rewrite lookup_insert_ne, app_nil_r by exact Hne.
        exact Hcbs.
Qed.

Lemma session_grows (self : device) (ops : list operation) :
  forall (w : world) (uuid : string) (cbs : list observer),
    callbacks w !! uuid = Some cbs ->
    exists more,
      callbacks (session self ops w) !! uuid = Some (cbs ++ more)%list.
Proof.
  induction ops as [|op ops IH]; intros w uuid cbs Hcbs.
  - exists []. rewrite app_nil_r. exact Hcbs.
  - destruct (perform_grows self op w uuid cbs Hcbs) as (more1 & H1).
    destruct (IH _ _ _ H1) as (more2 & H2).
    exists (more1 ++ more2)%list. rewrite app_assoc. exact H2.
Qed.

(** C8. The registry only grows.  Whatever sequence of public calls is
    made on a device, the observers registered for an identifier stay in
    its list, in their order, as a prefix of the later list.  A [subscribe]
    with a callback that returns normally on a BLED112 backend appends
    exactly that callback at the end of the identifier's list, creating the
    list if need be and leaving the other identifiers alone.  A dispatch
    calls the list front to back, so observers are called in the order of
    their registration. *)
Theorem registry_only_grows (self : device) :
  (forall (ops : list operation) (w : world) (uuid : string)
          (cbs : list observer),
      callbacks w !! uuid = Some cbs ->
      exists more,
        callbacks (session self ops w) !! uuid = Some (cbs ++ more)%list) /\
  (forall (uuid : string) (cb : observer) (indication : bool) (w w' : world),
      _backend_type self = BLED112 ->
      subscribe self uuid (Some cb) indication w = (Return tt, w') ->
      callbacks w' =
      <[uuid := (default [] (callbacks w !! uuid) ++ [cb])%list]>
        (callbacks w)) /\
  (forall (uuid : string) (cbs : list observer) (value : list byte)
          (w : world),
      callbacks w !! uuid = Some cbs ->
      Forall (fun cb => ob_body cb value = None) cbs ->
      notify (Some uuid) value w =
      (Return tt,
       World (callbacks w) (inbox w) (calls w)
             (invoked w ++ map (fun cb => (cb, value)) cbs)
             (sleeps w) (rssi_reads w))).
Proof.
  split; [|split].
  - intros ops. apply session_grows.
  - intros uuid cb indication w w' Hkind Hrun.
    destruct (subscribe_registry self uuid (Some cb) indication w)
      as [[[Hout|Hother] _]|(cb' & Hcb & _ & _ & Hreg)].
    + rewrite Hrun in Hout. cbn in Hout. congruence.
    + congruence.
    + injection Hcb as <-. rewrite Hrun in Hreg. cbn [snd] in Hreg.
      rewrite Hreg. apply register_appends.
  - intros uuid cbs value w Hcbs Hquiet.
    rewrite notify_run, call_observers_run. cbn [mbind option_bind].
    rewrite Hcbs. cbn [default from_option id].
    apply reached_all in Hquiet as [-> ->]. reflexivity.
Qed.

Lemma registry_only_grows_witness :
  let w := Fixture.listening [Fixture.good] [] in
  callbacks
    (session Fixture.answering_device
       [OpSubscribe Fixture.uuid_rx (Some Fixture.other) false;
        OpSubscribe Fixture.uuid_rx None false;
        OpCharWrite Fixture.uuid_tx [x00] true 2 (Some Fixture.uuid_rx) 1;
        OpGetRssi; OpStop] w) !! Fixture.uuid_rx =
  Some [Fixture.good; Fixture.other].
Proof.
  cbv zeta.
  destruct (proj1 (registry_only_grows Fixture.answering_device)
              [OpSubscribe Fixture.uuid_rx (Some Fixture.other) false;
               OpSubscribe Fixture.uuid_rx None false;
               OpCharWrite Fixture.uuid_tx [x00] true 2
                 (Some Fixture.uuid_rx) 1;
               OpGetRssi; OpStop]
              (Fixture.listening [Fixture.good] []) Fixture.uuid_rx
              [Fixture.good] eq_refl) as (more & Hmore).
  rewrite Hmore. vm_compute in Hmore. injection Hmore as <-. reflexivity.
Defined.

(** * Further properties of the facade *)

(** ** Which texts [_uuid_bytearray] accepts *)

Lemma hex_digit_is_hex (c : ascii) :
  UuidText.is_hex c = true <-> exists v, PyText.hex_digit c = Some v.
Proof.
  unfold UuidText.is_hex. destruct (PyText.hex_digit c) as [v|].
  - split; eauto.
  - split; [discriminate|intros [v Hv]; discriminate].
Qed.

(** [unhexlify] looks at the length first, then at the digits. *)
Lemma unhexlify_verdict (n : nat) :
  forall s, (String.length s <= n)%nat ->
    let digits := list_ascii_of_string s in
    match PyText.unhexlify s with
    | inr raw =>
        Nat.even (length digits) = true /\
        forallb UuidText.is_hex digits = true /\
        (2 * length raw = length digits)%nat
    | inl PyText.OddLength => Nat.even (length digits) = false
    | inl PyText.NonHexDigit =>
        Nat.even (length digits) = true /\
        forallb UuidText.is_hex digits = false
    end.
Proof.
  induction n as [|n IH]; intros s Hlen.
  - destruct s; [cbn; auto|cbn in Hlen; lia].
  - destruct s as [|a [|b rest]]; [cbn; auto|cbn; auto|].
    cbn [String.length] in Hlen.
    specialize (IH rest ltac:(lia)). cbv zeta in IH |- *.
    cbn [PyText.unhexlify list_ascii_of_string length forallb].
    change (Nat.even (S (S ?k))) with (Nat.even k).
    rewrite <- string_length_chars in *.
    change (UuidText.is_hex a)
      with (match PyText.hex_digit a with Some _ => true | None => false end).
    change (UuidText.is_hex b)
      with (match PyText.hex_digit b with Some _ => true | None => false end).
    destruct (PyText.hex_digit a) as [hi|].
    + destruct (PyText.hex_digit b) as [lo|].
      * destruct (PyText.unhexlify rest) as [[]|raw]; cbn [andb length].
        -- exact IH.
        -- exact IH.
        -- destruct IH as (He & Hh & Hl). repeat split; try assumption. lia.
      * cbn [andb]. destruct (Nat.even (String.length rest)); auto.
    + cbn [andb]. destruct (Nat.even (String.length rest)); auto.
Qed.

Lemma replace_chars (s : string) :
  PyText.replace "-" "" s =
  string_of_list_ascii (UuidText.strip_hyphens s).
Proof.
  rewrite <- replace_is_strip, string_of_list_ascii_of_string. reflexivity.
Qed.

(** X1. [_uuid_bytearray] does not look at the shape of the identifier.
    With the hyphens taken out, an even number of hexadecimal digits is
    converted, two digits to the byte, whatever their number and wherever
    the hyphens were; an odd number of characters is a [TypeError]
    ("Odd-length string") whatever the characters are; an even number with
    a character that is no hexadecimal digit is a [TypeError]
    ("Non-hexadecimal digit found").  The state is not touched. *)
Theorem uuid_bytearray_accepts_any_hex_pairs
    (self : device) (s : string) (w : world) :
  let digits := UuidText.strip_hyphens s in
  let run := _uuid_bytearray self (Some s) w in
  snd run = w /\
  (if Nat.even (length digits) then
     if forallb UuidText.is_hex digits then
       exists raw, fst run = Return raw /\
                   (2 * length raw = length digits)%nat
     else fst run = Raise (TypeError "Non-hexadecimal digit found")
   else fst run = Raise (TypeError "Odd-length string")).
Proof.
  cbv zeta. split; [apply uuid_bytearray_pure|].
  unfold _uuid_bytearray.
  pose proof (unhexlify_verdict _ (PyText.replace "-" "" s) (le_n _)) as H.
  cbv zeta in H. rewrite replace_is_strip in H.
  destruct (PyText.unhexlify (PyText.replace "-" "" s)) as [[]|raw].
  - rewrite H. reflexivity.
  - destruct H as [-> ->]. reflexivity.
  - destruct H as (-> & -> & Hlen). eauto.
Qed.

(** X2. Only the characters other than hyphens count: two texts that
    differ in their hyphens alone are converted alike and resolve to the
    same handle, with the same call to the backend. *)
Theorem hyphens_do_not_matter
    (self : device) (s s' : string) (w : world) :
  UuidText.strip_hyphens s = UuidText.strip_hyphens s' ->
  _uuid_bytearray self (Some s) w = _uuid_bytearray self (Some s') w /\
  _get_handle self (Some s) w = _get_handle self (Some s') w.
Proof.
  intros H. unfold _get_handle, bind, _uuid_bytearray.
  rewrite !replace_chars, H. split; reflexivity.
Qed.


Lemma hyphens_do_not_matter_witness :
  _get_handle Fixture.quiet_device (Some Fixture.uuid_tx)
    Fixture.empty_world =
  _get_handle Fixture.quiet_device (Some Fixture.uuid_tx_unhyphenated)
    Fixture.empty_world.
Proof.
  apply hyphens_do_not_matter. vm_compute. reflexivity.
Defined.

(** ** Reading a characteristic *)

(** X3. [char_read] on a BLED112 backend.  An identifier that does not
    convert raises before the backend is asked anything.  One that the
    backend cannot resolve raises [ValueError] ("invalid UUID") once the
    backend has been asked for the handle, and no read is issued.  A read
    that yields [None] raises [Exception] ("read failed").  Otherwise the
    bytes the backend read are returned as they are.  In every case the
    registry, the inbox and the observers are left alone. *)
Theorem char_read_bled112 (self : device) (uuid : string) (w : world) :
  _backend_type self = BLED112 ->
  let bk := _backend self in
  let run := char_read self uuid w in
  callbacks (snd run) = callbacks w /\ inbox (snd run) = inbox w /\
  invoked (snd run) = invoked w /\ sleeps (snd run) = sleeps w /\
  match PyText.unhexlify (PyText.replace "-" "" uuid) with
  | inl _ => (exists msg, fst run = Raise (TypeError msg)) /\ snd run = w
  | inr raw =>
      let asked := (calls w ++ [CallGetHandle (UuidRaw raw)])%list in
      match bk_get_handle bk (UuidRaw raw) with
      | None =>
          fst run = Raise (ValueError "invalid UUID") /\
          calls (snd run) = asked
      | Some h =>
          calls (snd run) = (asked ++ [CallCharRead (Some h)])%list /\
          match bk_char_read bk (Some h) with
          | None => fst run = Raise (Exception_ "read failed")
          | Some value => fst run = Return value
          end
      end
  end.
Proof.
  intros Hkind. cbv zeta. unfold char_read. rewrite Hkind.
  unfold _get_handle, _uuid_bytearray. rewrite Hkind.
  destruct (PyText.unhexlify _) as [[]|raw]; cbn.
  1-2: repeat split; eauto.
  destruct (bk_get_handle (_backend self) (UuidRaw raw)) as [h|]; cbn.
  - destruct (bk_char_read (_backend self) (Some h)); cbn;
      rewrite <- ?app_assoc; auto 10.
  - auto 10.
Qed.

Lemma char_read_bled112_witness :
  fst (char_read Fixture.quiet_device Fixture.uuid_tx Fixture.empty_world) =
  Return [].
Proof.
  pose proof (char_read_bled112 Fixture.quiet_device Fixture.uuid_tx
                Fixture.empty_world eq_refl) as H.
  cbv zeta in H.
  set (run := char_read Fixture.quiet_device Fixture.uuid_tx
                Fixture.empty_world) in *.
  clearbody run. destruct H as (_ & _ & _ & _ & H).
  vm_compute in H. destruct H as [_ H]. exact H.
Defined.

(** ** Writing without waiting, and writes that are refused *)

Lemma backend_char_write_run (bk : backend) (handle : option Z)
    (value : list byte) (flag : option bool) (w : world) :
  BackendObject.char_write bk handle value flag w =
  (Return (bk_char_write bk handle value),
   log_call (CallCharWrite handle value flag) w).
Proof. reflexivity. Qed.

(** X4. A BLED112 write that does not wait asks the backend for both
    handles, hands it the write handle as resolved (be it [None]) with the
    value, and returns; when the backend answers false it raises
    [Exception] ("write failed").  [num_packets] and the timeout play no
    part, nothing is polled and nothing sleeps.  A waiting write that the
    backend refuses raises the same, before any poll. *)
Theorem char_write_without_waiting
    (self : device) (uuid_write uuid_recv : string)
    (raw_write raw_recv : list byte) (value : list byte) (w : world) :
  _backend_type self = BLED112 ->
  PyText.unhexlify (PyText.replace "-" "" uuid_write) = inr raw_write ->
  PyText.unhexlify (PyText.replace "-" "" uuid_recv) = inr raw_recv ->
  let bk := _backend self in
  let handle_write := bk_get_handle bk (UuidRaw raw_write) in
  let w' :=
    World (callbacks w) (inbox w)
          (calls w ++ [CallGetHandle (UuidRaw raw_write);
                       CallGetHandle (UuidRaw raw_recv);
                       CallCharWrite handle_write value None])
          (invoked w) (sleeps w) (rssi_reads w) in
  (forall num_packets t,
     char_write self uuid_write value false num_packets (Some uuid_recv) t w =
     (if bk_char_write bk handle_write value then Return tt
      else Raise (Exception_ "write failed"), w')) /\
  (forall num_packets t,
     0 < num_packets ->
     bk_char_write bk handle_write value = false ->
     char_write self uuid_write value true num_packets (Some uuid_recv) t w =
     (Raise (Exception_ "write failed"), w')).
Proof.
  intros Hkind Hw Hr. cbv zeta.
  assert (forall wait num_packets t,
            (wait && (num_packets <=? 0)%Z = false) ->
            bk_char_write (_backend self)
              (bk_get_handle (_backend self) (UuidRaw raw_write)) value
            = false \/ wait = false ->
            char_write self uuid_write value wait num_packets
              (Some uuid_recv) t w =
            (if bk_char_write (_backend self)
                  (bk_get_handle (_backend self) (UuidRaw raw_write)) value
             then Return tt else Raise (Exception_ "write failed"),
             World (callbacks w) (inbox w)
               (calls w ++ [CallGetHandle (UuidRaw raw_write);
                            CallGetHandle (UuidRaw raw_recv);
                            CallCharWrite
                              (bk_get_handle (_backend self)
                                 (UuidRaw raw_write)) value None])
               (invoked w) (sleeps w) (rssi_reads w))) as Hrun.
  { intros wait num_packets t Hguard Hcase.
    unfold char_write. rewrite Hkind, Hguard.
    rewrite (bind_return _ _ _ _ _ (get_handle_run _ _ _ _ Hkind Hw)).
    rewrite (bind_return _ _ _ _ _ (get_handle_run _ _ _ _ Hkind Hr)).
    rewrite (bind_return _ _ _ _ _ (backend_char_write_run _ _ _ _ _)).
    unfold log_call. cbn [callbacks inbox calls invoked sleeps rssi_reads].
    rewrite <- !app_assoc. cbn [app].
    destruct Hcase as [Hno| ->].
    - rewrite Hno. reflexivity.
    - destruct (bk_char_write _ _ _); reflexivity. }
  split.
  - intros num_packets t. apply Hrun; auto.
  - intros num_packets t Hn Hno. rewrite Hrun, Hno; auto.
    cbn. apply Z.leb_gt. exact Hn.
Qed.

Lemma char_write_without_waiting_witness :
  fst (char_write Fixture.quiet_device Fixture.uuid_tx [x01] false 0
         (Some Fixture.uuid_rx) (-1) Fixture.empty_world) = Return tt.
Proof.
  rewrite (proj1 (char_write_without_waiting Fixture.quiet_device
                    Fixture.uuid_tx Fixture.uuid_rx
                    (UuidText.decode Fixture.uuid_tx)
                    (UuidText.decode Fixture.uuid_rx) [x01]
                    Fixture.empty_world eq_refl
                    ltac:(vm_compute; reflexivity)
                    ltac:(vm_compute; reflexivity))).
  reflexivity.
Defined.

(** X5. On a BLED112 backend the write reaches the backend only when both
    identifiers convert and, if the call waits, [num_packets] is positive:
    whenever the log of backend calls has gained a [char_write], a response
    identifier was given, it and the write identifier are even numbers of
    hexadecimal digits once the hyphens are gone, and the guard on
    [num_packets] was passed. *)
Theorem write_is_issued_only_after_both_conversions
    (self : device) (uuid_write : string) (value : list byte)
    (wait_for_response : bool) (num_packets : Z) (uuid_recv : option string)
    (t : Q) (w : world) (handle : option Z) (sent : list byte)
    (flag : option bool) :
  _backend_type self = BLED112 ->
  let run :=
    char_write self uuid_write value wait_for_response num_packets uuid_recv
      t w in
  In (CallCharWrite handle sent flag) (calls (snd run)) ->
  In (CallCharWrite handle sent flag) (calls w) \/
  ((exists raw, PyText.unhexlify (PyText.replace "-" "" uuid_write) = inr raw)
   /\
   (exists text raw,
      uuid_recv = Some text /\
      PyText.unhexlify (PyText.replace "-" "" text) = inr raw) /\
   (wait_for_response = true -> 0 < num_packets)).
Proof.
  intros Hkind. cbv zeta. intros Hin.
  destruct uuid_recv as [text|].
  2:{ destruct (char_write_bled112_needs_uuid_recv self uuid_write value
                  wait_for_response num_packets t w Hkind)
        as (e & w' & Hrun & [->|[raw ->]]);
        rewrite Hrun in Hin; cbn in Hin; [auto|].
      apply in_app_or in Hin as [Hin|[Hin|[]]]; [auto|discriminate]. }
  revert Hin. unfold char_write. rewrite Hkind.
  destruct (wait_for_response && (num_packets <=? 0)%Z) eqn:Hguard;
    [cbn; auto|].
  destruct (get_handle_bled112 self (Some uuid_write) w Hkind)
    as [(e & _ & Hw)|(raw_w & Hconv_w & Hw)].
  { rewrite (bind_raise _ _ _ _ _ Hw). cbn. auto. }
  rewrite (bind_return _ _ _ _ _ Hw).
  destruct (get_handle_bled112 self (Some text)
              (log_call (CallGetHandle (UuidRaw raw_w)) w) Hkind)
    as [(e & _ & Hr)|(raw_r & Hconv_r & Hr)].
  { rewrite (bind_raise _ _ _ _ _ Hr). cbn. intros Hin.
    apply in_app_or in Hin as [Hin|[Hin|[]]]; [auto|discriminate]. }
  intros _. right.
  assert (forall u raw w0,
            _uuid_bytearray self (Some u) w0 = (Return raw, w0) ->
            PyText.unhexlify (PyText.replace "-" "" u) = inr raw) as Hconv.
  { intros u raw w0. unfold _uuid_bytearray.
    destruct (PyText.unhexlify _) as [[]|raw0]; try discriminate.
    intros H. injection H as ->. reflexivity. }
  repeat split; eauto.
  intros ->. cbn in Hguard. apply Z.leb_gt. exact Hguard.
Qed.

Lemma write_is_issued_only_after_both_conversions_witness :
  exists raw,
    PyText.unhexlify (PyText.replace "-" "" Fixture.uuid_tx) = inr raw.
Proof.
  destruct (write_is_issued_only_after_both_conversions Fixture.quiet_device
              Fixture.uuid_tx [x01] false 1 (Some Fixture.uuid_rx) 1
              Fixture.empty_world (Some 3) [x01] None eq_refl)
    as [[]|(H & _)].
  - vm_compute. auto.
  - exact H.
Defined.

(** ** Who calls the observers, and when *)

Lemma rssi_rounds_keeps_invoked (n : nat) (self : device) :
  keeps invoked (rssi_rounds n self).
Proof. induction n as [|n IH]; cbn [rssi_rounds]; frame. Qed.

#[local] Hint Resolve rssi_rounds_keeps_invoked : frame.

Lemma quiet_call_keeps_invoked (self : device) (op : operation) :
  waits op = false -> keeps invoked (perform self op).
Proof.
  intros Hop. destruct op; cbn [perform]; try solve [frame].
  - cbn in Hop. subst wait_for_response. unfold char_write. cbn [andb].
    frame.
  - unfold forget, get_rssi. frame.
  - unfold subscribe. frame.
Qed.

(** X6. Observers are called by a waiting write and by nothing else: over
    any sequence of calls none of which is a [char_write] with
    [wait_for_response], whatever the backend and whatever arrives
    meanwhile, no observer is called.  Subscribing a callback does not call
    it, and the facade never dispatches what arrives on its own. *)
Theorem only_a_waiting_write_calls_observers
    (self : device) (ops : list operation) (w : world) :
  forallb (fun op => negb (waits op)) ops = true ->
  invoked (session self ops w) = invoked w.
Proof.
  revert w. induction ops as [|op ops IH]; intros w Hops; [reflexivity|].
  cbn in Hops. apply andb_prop in Hops as [Hop Hops].
  cbn [session fold_left]. fold (session self ops (snd (perform self op w))).
  rewrite IH by exact Hops.
  apply quiet_call_keeps_invoked. destruct (waits op); [discriminate|easy].
Qed.

Lemma only_a_waiting_write_calls_observers_witness :
  invoked
    (session Fixture.answering_device
       [OpSubscribe Fixture.uuid_rx (Some Fixture.other) false;
        OpCharWrite Fixture.uuid_tx [x00] false 2 (Some Fixture.uuid_rx) 1;
        OpGetRssi; OpCharRead Fixture.uuid_rx; OpStop]
       (Fixture.listening [Fixture.good] [[x01]])) = [].
Proof.
  apply (only_a_waiting_write_calls_observers Fixture.answering_device
           [OpSubscribe Fixture.uuid_rx (Some Fixture.other) false;
            OpCharWrite Fixture.uuid_tx [x00] false 2
              (Some Fixture.uuid_rx) 1;
            OpGetRssi; OpCharRead Fixture.uuid_rx; OpStop]
           (Fixture.listening [Fixture.good] [[x01]])).
  reflexivity.
Defined.

(** ** The GATTTOOL backend *)

Lemma gatttool_call_is_a_delegation (self : device) (op : operation) :
  _backend_type self = GATTTOOL ->
  keeps callbacks (perform self op) /\ keeps inbox (perform self op) /\
  keeps invoked (perform self op) /\ keeps sleeps (perform self op).
Proof.
  intros Hkind.
  destruct op; cbn [perform];
    unfold bond, connect, char_read, char_write, encrypt, get_rssi, run, stop,
      subscribe, forget; rewrite Hkind; repeat split; frame.
Qed.

(** X7. With the GATTTOOL backend the facade keeps no state of its own in
    play: over any sequence of calls the callback registry stays as it was
    ([subscribe] hands the callback to the backend instead), no observer is
    called by the facade, the inbox is neither read nor changed, and the
    facade never sleeps. *)
Theorem gatttool_session_is_pure_delegation
    (self : device) (ops : list operation) (w : world) :
  _backend_type self = GATTTOOL ->
  callbacks (session self ops w) = callbacks w /\
  inbox (session self ops w) = inbox w /\
  invoked (session self ops w) = invoked w /\
  sleeps (session self ops w) = sleeps w.
Proof.
  intros Hkind. revert w.
  induction ops as [|op ops IH]; intros w; [auto|].
  cbn [session fold_left]. fold (session self ops (snd (perform self op w))).
  destruct (IH (snd (perform self op w))) as (Hc & Hb & Hi & Hs).
  destruct (gatttool_call_is_a_delegation self op Hkind)
    as (Kc & Kb & Ki & Ks).
  rewrite Hc, Hb, Hi, Hs, Kc, Kb, Ki, Ks. auto.
Qed.

Lemma gatttool_session_is_pure_delegation_witness :
  let w := Fixture.listening [Fixture.good] [[x01]; [x02]] in
  let ops := [OpSubscribe Fixture.uuid_rx (Some Fixture.other) true;
              OpCharWrite Fixture.uuid_tx [x00] true 2
                (Some Fixture.uuid_rx) 1;
              OpGetRssi; OpEncrypt] in
  let bk := Fixture.fake (fun _ => 25) Fixture.two_packets true in
  callbacks (session (gatttool bk) ops w) = callbacks w /\
  inbox (session (gatttool bk) ops w) = inbox w /\
  invoked (session (gatttool bk) ops w) = invoked w /\
  sleeps (session (gatttool bk) ops w) = sleeps w.
Proof.
  cbv zeta. apply gatttool_session_is_pure_delegation. reflexivity.
Defined.

(** ** The cost of a signal-strength reading *)

(** X8. On a BLED112 backend [get_rssi] asks for a reading, and asks again
    only after a sentinel: with [k] sentinels at the head of the next three
    readings it makes [k + 1] requests (3 when [k = 3]) and [k] pauses of
    0.1 s, and returns the reading that follows the [k] sentinels, which is
    not 25; a reading of 25 is never returned as a reading.  The registry
    and the observers are not involved. *)
Theorem get_rssi_asks_no_more_than_needed (self : device) (w : world) :
  _backend_type self = BLED112 ->
  let reading i := bk_rssi (_backend self) (rssi_reads w + i)%nat in
  let k := sentinels_ahead self w in
  let run := get_rssi self w in
  (k <= 3)%nat /\
  (forall i, (i < k)%nat -> reading i = 25) /\
  fst run =
    Return (if (k <? 3)%nat then Reading (reading k)
            else ExceptionObject (Exception_ "get rssi failed")) /\
  ((k < 3)%nat -> reading k <> 25) /\
  calls (snd run) = (calls w ++ repeat CallGetRssi (Nat.min 3 (S k)))%list /\
  sleeps (snd run) = (sleeps w ++ repeat rssi_pause k)%list /\
  rssi_reads (snd run) = (rssi_reads w + Nat.min 3 (S k))%nat /\
  callbacks (snd run) = callbacks w /\ invoked (snd run) = invoked w.
Proof.
  intros Hkind. cbv zeta. unfold get_rssi, sentinels_ahead. rewrite Hkind.
  unfold rssi_rounds, BackendObject.get_rssi, bind, modify, gets, ret, sleep.
  cbn.
  rewrite Nat.add_0_r, Nat.add_1_r, (Nat.add_comm _ 2). cbn [Nat.add].
  destruct (bk_rssi (_backend self) (rssi_reads w) =? 25)%Z eqn:E0; cbn.
  2:{ apply Z.eqb_neq in E0. rewrite Nat.add_0_r, app_nil_r, Nat.add_1_r.
      repeat apply conj; try reflexivity; try lia; try (intros; assumption). }
  apply Z.eqb_eq in E0.
  destruct (bk_rssi (_backend self) (S (rssi_reads w)) =? 25)%Z eqn:E1; cbn.
  2:{ apply Z.eqb_neq in E1.
      rewrite Nat.add_1_r, (Nat.add_comm _ 2), <- !app_assoc. cbn [Nat.add].
      repeat apply conj; try reflexivity; try lia; try (intros; assumption).
      intros i Hi. replace i with 0%nat by lia.
      rewrite Nat.add_0_r. exact E0. }
  apply Z.eqb_eq in E1.
  destruct (bk_rssi (_backend self) (S (S (rssi_reads w))) =? 25)%Z eqn:E2;
    cbn.
  2:{ apply Z.eqb_neq in E2.
      rewrite (Nat.add_comm _ 2), (Nat.add_comm _ 3), <- !app_assoc.
      cbn [Nat.add].
      repeat apply conj; try reflexivity; try lia; try (intros; assumption).
      intros i Hi. destruct i as [|[|i]]; [| |lia].
      - rewrite Nat.add_0_r. exact E0.
      - rewrite Nat.add_1_r. exact E1. }
  apply Z.eqb_eq in E2.
  rewrite (Nat.add_comm _ 3), <- !app_assoc. cbn [Nat.add].
  repeat apply conj; try reflexivity; try lia.
  intros i Hi. destruct i as [|[|[|i]]]; [| | |lia].
  - rewrite Nat.add_0_r. exact E0.
  - rewrite Nat.add_1_r. exact E1.
  - rewrite (Nat.add_comm _ 2). exact E2.
Qed.

Lemma get_rssi_asks_no_more_than_needed_witness :
  let run := get_rssi Fixture.flaky_rssi_device Fixture.empty_world in
  fst run = Return (Reading (-48)) /\
  calls (snd run) = [CallGetRssi; CallGetRssi; CallGetRssi] /\
  sleeps (snd run) = [rssi_pause; rssi_pause].
Proof.
  cbv zeta.
  destruct (get_rssi_asks_no_more_than_needed Fixture.flaky_rssi_device
              Fixture.empty_world eq_refl)
    as (_ & _ & Hout & _ & Hcalls & Hsleeps & _).
  rewrite Hout, Hcalls, Hsleeps. repeat split.
Defined.

(** ** Subscribing, again and again *)

Lemma subscribe_run (self : device) (uuid : string) (cb : observer)
    (name : string) (raw : list byte) (indication : bool) (w : world) :
  _backend_type self = BLED112 ->
  ob_name cb = Some name ->
  PyText.unhexlify (PyText.replace "-" "" uuid) = inr raw ->
  subscribe self uuid (Some cb) indication w =
  (Return tt,
   World (register uuid cb (callbacks w)) (inbox w)
         (calls w ++ [CallSubscribe (UuidRaw raw) None indication])
         (invoked w) (sleeps w) (rssi_reads w)).
Proof.
  intros Hkind Hname Hraw. unfold subscribe, dunder_name, _uuid_bytearray.
  rewrite Hname. unfold bind at 1. cbn [ret]. rewrite Hkind.
  unfold bind at 1. rewrite Hraw. reflexivity.
Qed.

(** Without a [__name__] to log, [subscribe] raises at its first statement,
    whatever the backend. *)
Lemma subscribe_nameless (self : device) (uuid : string)
    (callback : option observer) (indication : bool) (w : world) :
  callback ≫= ob_name = None ->
  exists msg,
    subscribe self uuid callback indication w = (Raise (AttributeError msg), w).
Proof.
  intros Hname. unfold subscribe, dunder_name.
  destruct callback as [cb|]; cbn in Hname; [rewrite Hname|]; eauto.
Qed.

(** X9. On a BLED112 backend [subscribe] returns exactly when a callback is
    given, the callback has a [__name__] and the identifier converts.
    Without a callback, or with a callable that has no [__name__], it
    raises [AttributeError].  Whenever it raises, the backend has not been
    asked anything and nothing is registered.  When it returns, the backend
    has been asked once, for the converted identifier and with the
    indication flag but without the callback, and the callback is
    registered under the text of the identifier. *)
Theorem subscribe_returns_iff_named_callback_and_hex
    (self : device) (uuid : string) (callback : option observer)
    (indication : bool) (w : world) :
  _backend_type self = BLED112 ->
  let run := subscribe self uuid callback indication w in
  (fst run = Return tt <->
   exists cb name raw,
     callback = Some cb /\ ob_name cb = Some name /\
     PyText.unhexlify (PyText.replace "-" "" uuid) = inr raw) /\
  (callback ≫= ob_name = None ->
   exists msg, fst run = Raise (AttributeError msg)) /\
  (fst run <> Return tt -> snd run = w) /\
  (forall cb name raw,
     callback = Some cb ->
     ob_name cb = Some name ->
     PyText.unhexlify (PyText.replace "-" "" uuid) = inr raw ->
     snd run =
     World (register uuid cb (callbacks w)) (inbox w)
           (calls w ++ [CallSubscribe (UuidRaw raw) None indication])
           (invoked w) (sleeps w) (rssi_reads w)).
Proof.
  intros Hkind. cbv zeta.
  destruct (callback ≫= ob_name) as [name|] eqn:Hname.
  2:{ destruct (subscribe_nameless self uuid callback indication w Hname)
        as [msg ->]. cbn [fst snd].
      split; [|split; [eauto|split; [reflexivity|]]].
      - split; [discriminate|].
        intros (cb & name & raw & -> & H & _). cbn in Hname. congruence.
      - intros cb name raw -> H _. cbn in Hname. congruence. }
  destruct callback as [cb|]; [|discriminate]. cbn in Hname.
  split; [|split; [discriminate|]].
  - destruct (PyText.unhexlify (PyText.replace "-" "" uuid)) as [err|raw] eqn:E.
    + assert (exists msg, subscribe self uuid (Some cb) indication w =
                          (Raise (TypeError msg), w)) as [msg ->].
      { unfold subscribe, dunder_name, _uuid_bytearray. rewrite Hname.
        unfold bind at 1. cbn [ret]. rewrite Hkind.
        unfold bind at 1. rewrite E. destruct err; eauto. }
      split; [discriminate|].
      intros (cb' & name' & raw & _ & _ & H). discriminate.
    + rewrite (subscribe_run _ _ _ _ _ _ _ Hkind Hname E).
      split; [|reflexivity]. intros _. eauto 6.
  - destruct (PyText.unhexlify (PyText.replace "-" "" uuid)) as [err|raw] eqn:E.
    + assert (exists msg, subscribe self uuid (Some cb) indication w =
                          (Raise (TypeError msg), w)) as [msg ->].
      { unfold subscribe, dunder_name, _uuid_bytearray. rewrite Hname.
        unfold bind at 1. cbn [ret]. rewrite Hkind.
        unfold bind at 1. rewrite E. destruct err; eauto. }
      split; [reflexivity|]. intros cb' name' raw _ _ H. discriminate.
    + rewrite (subscribe_run _ _ _ _ _ _ _ Hkind Hname E). cbn [fst snd].
      split; [congruence|].
      intros cb' name' raw' Hcb _ Hraw. congruence.
Qed.

Lemma subscribe_returns_iff_named_callback_and_hex_witness :
  (exists msg,
     fst (subscribe Fixture.quiet_device Fixture.uuid_rx
            (Some Fixture.nameless) false Fixture.empty_world) =
     Raise (AttributeError msg)) /\
  snd (subscribe Fixture.quiet_device Fixture.uuid_rx
         (Some Fixture.nameless) false Fixture.empty_world) =
  Fixture.empty_world.
Proof.
  destruct (subscribe_returns_iff_named_callback_and_hex Fixture.quiet_device
              Fixture.uuid_rx (Some Fixture.nameless) false
              Fixture.empty_world eq_refl)
    as (_ & Hraise & Hfail & _).
  destruct (Hraise eq_refl) as [msg Hmsg].
  split; [exists msg; exact Hmsg|].
  apply Hfail. rewrite Hmsg. discriminate.
Defined.

Lemma session_cons (self : device) (op : operation) (ops : list operation)
    (w : world) :
  session self (op :: ops) w = session self ops (snd (perform self op w)).
Proof. reflexivity. Qed.

(** X10. The registry does not look for duplicates: subscribing the same
    callback [n] times for an identifier puts it [n] times at the end of
    that identifier's list, and a dispatch then calls it [n] times with the
    same value.  (A callable without a [__name__] is never registered,
    since each of the [n] calls raises: for it the count is 0.) *)
Theorem subscribing_again_registers_again
    (self : device) (uuid : string) (raw : list byte) (cb : observer)
    (indication : bool) (n : nat) (w : world) :
  _backend_type self = BLED112 ->
  PyText.unhexlify (PyText.replace "-" "" uuid) = inr raw ->
  let w' :=
    session self (repeat (OpSubscribe uuid (Some cb) indication) n) w in
  let count := match ob_name cb with Some _ => n | None => 0%nat end in
  default [] (callbacks w' !! uuid) =
    (default [] (callbacks w !! uuid) ++ repeat cb count)%list /\
  (forall value,
     callbacks w !! uuid = None ->
     ob_body cb value = None ->
     invoked (snd (notify (Some uuid) value w')) =
     (invoked w ++ repeat (cb, value) count)%list).
Proof.
  intros Hkind Hraw. cbv zeta.
  destruct (ob_name cb) as [name|] eqn:Hname.
  2:{ assert (forall n w,
                session self (repeat (OpSubscribe uuid (Some cb) indication) n)
                  w = w) as Hn.
      { clear n w. induction n as [|n IH]; intros w; [reflexivity|].
        cbn [repeat]. rewrite session_cons. cbn [perform].
        destruct (subscribe_nameless self uuid (Some cb) indication w Hname)
          as [msg ->]. apply IH. }
      rewrite Hn. cbn [repeat]. rewrite app_nil_r. split; [reflexivity|].
      intros value Hnone _. rewrite notify_run. cbn [mbind option_bind].
      rewrite Hnone, app_nil_r. reflexivity. }
  assert (forall n w,
            default [] (callbacks
              (session self (repeat (OpSubscribe uuid (Some cb) indication) n)
                 w) !! uuid) =
            (default [] (callbacks w !! uuid) ++ repeat cb n)%list /\
            invoked
              (session self (repeat (OpSubscribe uuid (Some cb) indication) n)
                 w) = invoked w) as Hn.
  { clear n w. induction n as [|n IH]; intros w.
    - cbn. rewrite app_nil_r. auto.
    - cbn [repeat]. rewrite session_cons. cbn [perform].
      rewrite (subscribe_run _ _ _ _ _ _ _ Hkind Hname Hraw). cbn [snd].
      destruct (IH (World (register uuid cb (callbacks w)) (inbox w)
                      (calls w ++ [CallSubscribe (UuidRaw raw) None
                                     indication])
                      (invoked w) (sleeps w) (rssi_reads w))) as [-> ->].
      cbn [callbacks invoked].
      rewrite register_appends, lookup_insert_eq. cbn [default from_option id].
      rewrite <- app_assoc. auto. }
  destruct (Hn n w) as [Hreg Hinv]. split; [exact Hreg|].
  intros value Hnone Hquiet.
  rewrite notify_run, call_observers_run. cbn [mbind option_bind snd invoked].
  change (default [] (callbacks ?x !! uuid))
    with (default [] (callbacks x !! uuid)) in Hreg.
  rewrite Hreg, Hinv, Hnone. cbn [default from_option id app].
  assert (Forall (fun c => ob_body c value = None) (repeat cb n)) as Hall
    by (clear - Hquiet; induction n; cbn; constructor; auto).
  apply reached_all in Hall as [-> _].
  f_equal. clear. induction n as [|k IHk]; [reflexivity|].
  cbn. f_equal. exact IHk.
Qed.

Lemma subscribing_again_registers_again_witness :
  let w' :=
    session Fixture.quiet_device
      (repeat (OpSubscribe Fixture.uuid_rx (Some Fixture.good) false) 3)
      Fixture.empty_world in
  invoked (snd (notify (Some Fixture.uuid_rx) [x07] w')) =
  [(Fixture.good, [x07]); (Fixture.good, [x07]); (Fixture.good, [x07])].
Proof.
  cbv zeta.
  exact (proj2 (subscribing_again_registers_again Fixture.quiet_device
                  Fixture.uuid_rx (UuidText.decode Fixture.uuid_rx)
                  Fixture.good false 3 Fixture.empty_world eq_refl
                  ltac:(vm_compute; reflexivity))
           [x07] eq_refl eq_refl).
Defined.

(** ** When the response comes *)

Lemma too_early (t sec : Q) (j : nat) :
  (sec <= waited j)%Q -> (j < poll_budget t)%nat -> Qle_bool t sec = false.
Proof.
  intros Hsec Hj. destruct (Qle_bool t sec) eqn:E; [|reflexivity].
  apply Qle_bool_iff in E.
  assert (t <= waited j)%Q as Hle by lra.
  apply budget_reached in Hle. lia.
Qed.

(** The loop leaves at the first round that finds the queue long enough,
    if the rounds before it were within the budget: the counter, which
    never runs ahead of the quanta slept, has not reached the timeout. *)
Lemma wait_reaches (k : nat) :
  forall (fuel : nat) (self : device) (h : Z) (num_packets : Z) (t : Q)
         (first : notifications_ref) (sec : Q) (w : world) (j : nat),
    (sec <= waited j)%Q ->
    (j + k <= poll_budget t)%nat ->
    (k <= fuel)%nat ->
    (forall i, (i < k)%nat ->
       exists queue,
         subscript (held_ref (_backend self) first w i) (Some h)
           (slept (_backend self) w i) =
         (Return queue, slept (_backend self) w i) /\
         Z.of_nat (length queue) < num_packets) ->
    (exists queue,
       subscript (held_ref (_backend self) first w k) (Some h)
         (slept (_backend self) w k) =
       (Return queue, slept (_backend self) w k) /\
       num_packets <= Z.of_nat (length queue)) ->
    exists sec',
      (sec' <= waited (j + k))%Q /\
      wait_for_packets fuel self (Some h) num_packets t first sec w =
      (Return (held_ref (_backend self) first w k, sec'),
       slept (_backend self) w k).
Proof.
  induction k as [|k IH];
    intros fuel self h num_packets t first sec w j Hsec Hbudget Hfuel
      Hshort Hlong.
  - destruct Hlong as (queue & Hq & Hlen).
    exists sec. rewrite Nat.add_0_r. split; [exact Hsec|].
    destruct (wait_stop fuel self (Some h) num_packets t first sec w)
      as (_ & Hstop & _).
    apply (Hstop queue Hq). apply Z.ltb_ge. exact Hlen.
  - destruct fuel as [|fuel]; [lia|].
    destruct (Hshort 0%nat ltac:(lia)) as (queue & Hq & Hlen).
    cbn [held_ref slept] in Hq.
    assert (Qle_bool t sec = false) as Htime
      by (apply (too_early t sec j Hsec); lia).
    rewrite (wait_round fuel _ _ _ _ _ _ _ _ Hq
               ltac:(apply Z.ltb_lt; exact Hlen) Htime).
    assert (add_quantum sec <= waited (S j))%Q as Hnext.
    { destruct (add_quantum_bound sec) as [_ Hup].
      rewrite <- (waited_succ (waited j) j) by reflexivity. lra. }
    destruct (IH fuel self h num_packets t
                (polled_ref (_backend self) (round (_backend self) w))
                (add_quantum sec) (round (_backend self) w) (S j)
                Hnext ltac:(lia) ltac:(lia))
      as (sec' & Hsec' & Hrun).
    + intros i Hi. rewrite slept_round, (held_ref_round _ first).
      exact (Hshort (S i) ltac:(lia)).
    + rewrite slept_round, (held_ref_round _ first). exact Hlong.
    + exists sec'. replace (j + S k)%nat with (S j + k)%nat by lia.
      split; [exact Hsec'|].
      rewrite Hrun, slept_round, (held_ref_round _ first). reflexivity.
Qed.

(** X11. A waiting write on a BLED112 backend that hands out its inbox
    returns at the first poll that finds [num_packets] entries queued for
    the response handle, provided that poll is among the first
    [ceil(timeout / 0.25) + 1]: at the [k]-th poll (counting from 0) it has
    slept exactly [k] quanta of 0.25 s.  Entries already queued when the
    call starts count, whatever the timeout ([k = 0]: the queue is not
    emptied before the write); so do entries that arrive during the last
    quantum ([k = ceil(timeout / 0.25)]).  The first [num_packets] entries
    of the queue found then are removed and their concatenation goes to the
    observers registered under the text of the response identifier. *)
Theorem char_write_returns_at_first_full_poll
    (self : device) (uuid_write uuid_recv : string)
    (raw_write raw_recv : list byte) (value : list byte) (num_packets : Z)
    (t : Q) (h : Z) (w : world) (k : nat) (queue : list (list byte)) :
  _backend_type self = BLED112 ->
  bk_shares_inbox (_backend self) = true ->
  0 < num_packets ->
  PyText.unhexlify (PyText.replace "-" "" uuid_write) = inr raw_write ->
  PyText.unhexlify (PyText.replace "-" "" uuid_recv) = inr raw_recv ->
  bk_get_handle (_backend self) (UuidRaw raw_recv) = Some h ->
  bk_char_write (_backend self)
    (bk_get_handle (_backend self) (UuidRaw raw_write)) value = true ->
  (k <= Z.to_nat (Qceiling (t / quantum)))%nat ->
  (forall i, (i < k)%nat ->
     exists short,
       polled_inbox (_backend self) w i !! h = Some short /\
       Z.of_nat (length short) < num_packets) ->
  polled_inbox (_backend self) w k !! h = Some queue ->
  num_packets <= Z.of_nat (length queue) ->
  let n := Z.to_nat num_packets in
  let cbs := default [] (callbacks w !! uuid_recv) in
  let value_list := concat (take n queue) in
  let run :=
    char_write self uuid_write value true num_packets (Some uuid_recv) t w in
  fst run = outcome_of (first_raise cbs value_list) /\
  sleeps (snd run) = (sleeps w ++ repeat quantum k)%list /\
  inbox (snd run) =
    <[h := drop n queue]> (polled_inbox (_backend self) w k) /\
  invoked (snd run) =
    (invoked w ++ map (fun cb => (cb, value_list)) (reached cbs value_list))
    %list.
Proof.
  intros Hkind Hshares Hn Hw Hr Hh Hok Hk Hshort Hq Hlen. cbv zeta.
  fold (poll_budget t) in Hk.
  set (bk := _backend self) in *.
  set (w0 := started raw_write raw_recv
               (bk_get_handle bk (UuidRaw raw_write)) value w).
  destruct (wait_reaches k (poll_budget t) self h num_packets t
              (polled_ref bk w0) 0%Q w0 0%nat)
    as (sec' & _ & Hwait).
  { rewrite waited_0. lra. }
  { lia. }
  { exact Hk. }
  { intros i Hi. destruct (Hshort i Hi) as (short & Hs & Hl).
    exists short. split; [|exact Hl].
    apply (polled_subscript bk w0 w); [reflexivity..|exact Hs]. }
  { exists queue. split; [|exact Hlen].
    apply (polled_subscript bk w0 w); [reflexivity..|exact Hq]. }
  fold bk in Hwait.
  assert (await self uuid_write value num_packets (Some uuid_recv) t w =
          (Return (Some h, held_ref bk (polled_ref bk w0) w0 k),
           slept bk w0 k)) as Hawait.
  { rewrite (await_run self uuid_write uuid_recv raw_write raw_recv value
               num_packets t w Hkind Hw Hr Hok).
    fold bk. rewrite Hh. fold w0.
    rewrite (bind_return _ _ _ _ _ Hwait). reflexivity. }
  assert (inbox (slept bk w0 k) = polled_inbox bk w k) as Hbox
    by (apply slept_inbox; reflexivity).
  rewrite (char_write_after_wait self uuid_write value num_packets
             (Some uuid_recv) t w (slept bk w0 k) h _ queue
             Hkind Hn Hshares Hawait ltac:(rewrite Hbox; exact Hq)).
  destruct (slept_frame bk w0 k) as (Hc & Hi & _ & Hs & _).
  cbn [fst snd sleeps inbox invoked mbind option_bind].
  rewrite Hc, Hi, Hs, Hbox. auto.
Qed.

Lemma char_write_returns_at_first_full_poll_witness :
  let run :=
    char_write Fixture.answering_device Fixture.uuid_tx [x00] true 2
      (Some Fixture.uuid_rx) (1 # 4)
      (Fixture.listening [Fixture.good] []) in
  fst run = Return tt /\
  sleeps (snd run) = [quantum] /\
  invoked (snd run) = [(Fixture.good, [x01; x02; x03; x04])].
Proof.
  cbv zeta.
  destruct (char_write_returns_at_first_full_poll Fixture.answering_device
              Fixture.uuid_tx Fixture.uuid_rx
              (UuidText.decode Fixture.uuid_tx)
              (UuidText.decode Fixture.uuid_rx) [x00] 2 (1 # 4) 3
              (Fixture.listening [Fixture.good] []) 1
              [[x01; x02]; [x03; x04]])
    as (Hout & Hsleeps & _ & Hinv).
  - reflexivity.
  - reflexivity.
  - lia.
  - vm_compute. reflexivity.
  - vm_compute. reflexivity.
  - reflexivity.
  - reflexivity.
  - vm_compute. lia.
  - intros i Hi. exists []. replace i with 0%nat by lia.
    split; [reflexivity|cbn; lia].
  - vm_compute. reflexivity.
  - cbn. lia.
  - rewrite Hout, Hsleeps, Hinv. repeat split.
Defined.

(** X12. The registry is keyed by the text of the identifier, not by its
    bytes.  A waiting write whose response identifier has no entry under
    that very text removes the [num_packets] entries from the inbox all the
    same, calls nobody and returns: the reassembled value is lost, also
    when observers are registered under another spelling of the same
    identifier. *)
Theorem unobserved_response_is_consumed_and_lost
    (self : device) (uuid_write uuid_recv : string) (value : list byte)
    (num_packets : Z) (t : Q) (w w1 : world) (h : Z)
    (held : notifications_ref) (queue : list (list byte)) :
  _backend_type self = BLED112 ->
  0 < num_packets ->
  bk_shares_inbox (_backend self) = true ->
  await self uuid_write value num_packets (Some uuid_recv) t w =
  (Return (Some h, held), w1) ->
  inbox w1 !! h = Some queue ->
  callbacks w !! uuid_recv = None ->
  let run :=
    char_write self uuid_write value true num_packets (Some uuid_recv) t w in
  fst run = Return tt /\
  invoked (snd run) = invoked w /\
  inbox (snd run) = <[h := drop (Z.to_nat num_packets) queue]> (inbox w1) /\
  callbacks (snd run) = callbacks w.
Proof.
  intros Hkind Hn Hshares Hawait Hq Hnone. cbv zeta.
  pose proof (await_keeps_callbacks self uuid_write value num_packets
                (Some uuid_recv) t w) as Hcb.
  pose proof (await_keeps_invoked self uuid_write value num_packets
                (Some uuid_recv) t w) as Hinv.
  rewrite Hawait in Hcb, Hinv. cbn [snd] in Hcb, Hinv.
  rewrite (char_write_after_wait _ _ _ _ _ _ _ _ _ _ _
             Hkind Hn Hshares Hawait Hq).
  cbn [mbind option_bind]. rewrite Hcb, Hnone.
  cbn. rewrite app_nil_r. auto.
Qed.

Lemma unobserved_response_is_consumed_and_lost_witness :
  let w := Fixture.listening [Fixture.good] [[x01]; [x02]] in
  let run :=
    char_write Fixture.quiet_device Fixture.uuid_tx [x00] true 2
      (Some Fixture.uuid_rx_lower) 1 w in
  _get_handle Fixture.quiet_device (Some Fixture.uuid_rx_lower) w =
  _get_handle Fixture.quiet_device (Some Fixture.uuid_rx) w /\
  fst run = Return tt /\ invoked (snd run) = [] /\
  inbox (snd run) !! 3 = Some [].
Proof.
  cbv zeta.
  set (w := Fixture.listening [Fixture.good] [[x01]; [x02]]).
  set (ready := await Fixture.quiet_device Fixture.uuid_tx [x00] 2
                  (Some Fixture.uuid_rx_lower) 1 w).
  assert (ready = (Return (Some 3, LiveInbox), snd ready)) as Hready
    by (vm_compute; reflexivity).
  assert (inbox (snd ready) !! 3 = Some [[x01]; [x02]]) as Hq
    by (vm_compute; reflexivity).
  destruct (unobserved_response_is_consumed_and_lost Fixture.quiet_device
              Fixture.uuid_tx Fixture.uuid_rx_lower [x00] 2 1 w (snd ready) 3
              LiveInbox [[x01]; [x02]] eq_refl ltac:(lia) eq_refl Hready Hq
              ltac:(vm_compute; reflexivity))
    as (Hout & Hinv & Hbox & _).
  split; [vm_compute; reflexivity|].
  split; [exact Hout|]. split; [exact Hinv|].
  rewrite Hbox. apply lookup_insert_eq.
Defined.

(** ** Construction and the device address *)

Lemma hex_is_no_colon (c : ascii) :
  UuidText.is_hex c = true -> Ascii.eqb c ":" = false.
Proof.
  destruct c as [[] [] [] [] [] [] [] []]; vm_compute; intros; congruence.
Qed.

Lemma hex_digit_below_16 (c : ascii) (v : N) :
  PyText.hex_digit c = Some v -> (v < 16)%N.
Proof.
  unfold PyText.hex_digit. cbv zeta.
  repeat match goal with
         | |- context [if ?b then _ else _] => destruct b eqn:?
         end; intros H; try discriminate; injection H as <-;
    repeat match goal with
           | H : (_ && _) = true |- _ => apply andb_prop in H as [? ?]
           | H : (_ <=? _)%N = true |- _ => apply N.leb_le in H
           end; lia.
Qed.

Lemma split_groups (groups : list (ascii * ascii)) :
  groups <> [] ->
  forallb hex_group groups = true ->
  split ":" (mac_text groups) = map group_text groups.
Proof.
  induction groups as [|[a b] more IH]; intros Hne Hhex; [congruence|].
  cbn [forallb] in Hhex. apply andb_prop in Hhex as [Hg Hmore].
  unfold hex_group in Hg. cbn [fst snd] in Hg.
  apply andb_prop in Hg as [Ha Hb].
  destruct more as [|g more].
  - cbn [mac_text map group_text fst snd split].
    rewrite (hex_is_no_colon _ Ha), (hex_is_no_colon _ Hb). reflexivity.
  - specialize (IH ltac:(discriminate) Hmore).
    change (mac_text ((a, b) :: g :: more))
      with (String a (String b (String ":" (mac_text (g :: more))))).
    cbn [split]. rewrite (hex_is_no_colon _ Ha), (hex_is_no_colon _ Hb).
    replace (Ascii.eqb ":" ":") with true by reflexivity.
    rewrite IH. reflexivity.
Qed.

Lemma groups_read (int16 : string -> option Z)
    (groups : list (ascii * ascii)) :
  reads_hex_pairs int16 ->
  forallb hex_group groups = true ->
  mapM int16 (map group_text groups) =
  Some (map (fun g => Z.of_N (16 * hex_value (fst g) + hex_value (snd g)))
            groups).
Proof.
  intros Hint. induction groups as [|[a b] more IH]; intros Hhex;
    [reflexivity|].
  cbn [forallb] in Hhex. apply andb_prop in Hhex as [Hg Hmore].
  unfold hex_group in Hg. cbn [fst snd] in Hg.
  apply andb_prop in Hg as [Ha Hb].
  apply hex_digit_is_hex in Ha as [hi Ha], Hb as [lo Hb].
  specialize (IH Hmore). specialize (Hint a b hi lo Ha Hb).
  change (map group_text ((a, b) :: more))
    with (String a (String b EmptyString) :: map group_text more).
  change (mapM int16 (String a (String b EmptyString) :: map group_text more))
    with (int16 (String a (String b EmptyString)) ≫= fun y =>
          mapM int16 (map group_text more) ≫= fun k => mret (y :: k)).
  rewrite Hint, IH. cbn [map fst snd]. unfold hex_value.
  rewrite Ha, Hb. reflexivity.
Qed.

Lemma groups_are_bytes (groups : list (ascii * ascii)) :
  forallb hex_group groups = true ->
  bytearray
    (map (fun g => Z.of_N (16 * hex_value (fst g) + hex_value (snd g)))
         groups) = inr (map group_byte groups).
Proof.
  intros Hhex. unfold bytearray.
  replace (forallb _ (map _ groups)) with true.
  - f_equal. rewrite map_map. apply map_ext. intros [a b].
    unfold group_byte, PyText.byte_of_nibbles. rewrite N2Z.id. reflexivity.
  - symmetry. apply forallb_forall. intros z Hz.
    apply in_map_iff in Hz as ([a b] & <- & Hin).
    rewrite forallb_forall in Hhex. specialize (Hhex _ Hin).
    unfold hex_group in Hhex. cbn [fst snd] in *.
    apply andb_prop in Hhex as [Ha Hb].
    apply hex_digit_is_hex in Ha as [hi Ha], Hb as [lo Hb].
    unfold hex_value. rewrite Ha, Hb. cbn [default from_option id].
    apply hex_digit_below_16 in Ha, Hb.
    apply andb_true_intro. split; [apply Z.leb_le|apply Z.ltb_lt]; lia.
Qed.

(** X13. Construction with a BLED112 backend parses the address group by
    group: for an address written as groups of two hexadecimal digits with
    colons between, the device stores one byte per group, the byte its two
    digits write, and it is these bytes that [connect] hands to the backend
    with the timeout, raising [NotConnectedError] when the backend answers
    false.  The number of groups is not checked: any number from one on is
    taken, not six only.  The registry of the new device is empty. *)
Theorem init_parses_the_address_group_by_group
    (int16 : string -> option Z) (make : string -> string -> backend)
    (groups : list (ascii * ascii)) (hci_device : string) (bk : backend)
    (w : world) :
  reads_hex_pairs int16 ->
  groups <> [] ->
  forallb hex_group groups = true ->
  let self := Device bk BLED112 (map group_byte groups) in
  __init__ int16 make (mac_text groups) hci_device (Some bk) w =
  (Return self, set_callbacks (fun _ => ∅) w) /\
  forall timeout w',
    connect self timeout w' =
    (if bk_connect bk (Some (map group_byte groups)) timeout then Return tt
     else Raise (NotConnectedError "Connect failed"),
     log_call (CallConnect (Some (map group_byte groups)) timeout) w').
Proof.
  intros Hint Hne Hhex. cbv zeta. split.
  - unfold __init__, mac_bytearray, bind, modify. cbn [fst snd].
    rewrite (split_groups _ Hne Hhex), (groups_read _ _ Hint Hhex),
      (groups_are_bytes _ Hhex). reflexivity.
  - intros timeout w'. unfold connect, BackendObject.connect, bind, modify,
      ret. cbn.
    destruct (bk_connect bk _ timeout); reflexivity.
Qed.

Lemma plain_int16_reads_hex_pairs : reads_hex_pairs Fixture.plain_int16.
Proof.
  intros a b hi lo Ha Hb. cbn. rewrite Ha, Hb. f_equal. lia.
Qed.

Lemma init_parses_the_address_group_by_group_witness :
  fst (__init__ Fixture.plain_int16
         (fun _ _ => Fixture.fake (fun _ => 25) Fixture.silent true)
         "00:1A:7d" "hci0"
         (Some (Fixture.fake (fun _ => -60) Fixture.silent true))
         Fixture.empty_world) =
  Return (Device (Fixture.fake (fun _ => -60) Fixture.silent true) BLED112
            [x00; x1a; x7d]).
Proof.
  exact (f_equal fst
           (proj1 (init_parses_the_address_group_by_group Fixture.plain_int16
                     (fun _ _ => Fixture.fake (fun _ => 25) Fixture.silent true)
                     [("0", "0"); ("1", "A"); ("7", "d")]%char "hci0"
                     (Fixture.fake (fun _ => -60) Fixture.silent true)
                     Fixture.empty_world plain_int16_reads_hex_pairs
                     ltac:(discriminate) eq_refl))).
Defined.

Lemma split_has_a_piece (sep : ascii) (s : string) : split sep s <> [].
Proof.
  destruct s as [|c s]; cbn [split]; [discriminate|].
  destruct (Ascii.eqb c sep); [discriminate|].
  destruct (split sep s); discriminate.
Qed.

Lemma split_at_separator (sep : ascii) (s1 s2 : string) :
  split sep (s1 ++ String sep s2) = (split sep s1 ++ split sep s2)%list.
Proof.
  induction s1 as [|c s1 IH].
  - change (split sep (String sep s2) =
            ([EmptyString] ++ split sep s2)%list).
    cbn [split]. rewrite Ascii.eqb_refl. reflexivity.
  - change (split sep (String c (s1 ++ String sep s2)) =
            (split sep (String c s1) ++ split sep s2)%list).
    cbn [split]. rewrite IH. destruct (Ascii.eqb c sep); [reflexivity|].
    pose proof (split_has_a_piece sep s1) as Hne.
    destruct (split sep s1); [congruence|reflexivity].
Qed.

(** X14. An address with an empty group is refused when a BLED112 backend
    is given: construction raises [ValueError] and there is no device.  The
    empty address has an empty group, and so has every address with a colon
    at its start or end or with two colons in a row.  With the GATTTOOL
    backend the same text is not looked at: it is handed to the backend's
    constructor and the device is built. *)
Theorem init_refuses_an_empty_group
    (int16 : string -> option Z) (make : string -> string -> backend)
    (mac_address hci_device : string) (bk : backend) (w : world) :
  refuses_empty int16 ->
  In EmptyString (split ":" mac_address) ->
  (exists msg,
     fst (__init__ int16 make mac_address hci_device (Some bk) w) =
     Raise (ValueError msg)) /\
  fst (__init__ int16 make mac_address hci_device None w) =
  Return (Device (make mac_address hci_device) GATTTOOL []) /\
  (forall s1 s2,
     In EmptyString (split ":" (s1 ++ String ":" (String ":" s2))) /\
     In EmptyString (split ":" (s1 ++ ":")) /\
     In EmptyString (split ":" (String ":" s2)) /\
     In EmptyString (split ":" EmptyString)).
Proof.
  intros Hempty Hin. split; [|split; [reflexivity|]].
  - unfold __init__, mac_bytearray, bind, modify. cbn [fst snd].
    destruct (mapM int16 (split ":" mac_address)) as [ints|] eqn:E;
      [|cbn; eauto].
    exfalso.
    assert (is_Some (mapM int16 (split ":" mac_address))) as Hsome
      by (rewrite E; eauto).
    apply mapM_is_Some in Hsome. rewrite Forall_forall in Hsome.
    apply list_elem_of_In in Hin. specialize (Hsome _ Hin).
    unfold compose in Hsome. rewrite Hempty in Hsome.
    destruct Hsome as [x Hx]. discriminate.
  - intros s1 s2. repeat split.
    + rewrite split_at_separator. apply in_or_app. right. cbn. auto.
    + rewrite split_at_separator. apply in_or_app. right. cbn. auto.
    + cbn. auto.
    + cbn. auto.
Qed.

Lemma init_refuses_an_empty_group_witness :
  exists msg,
    fst (__init__ Fixture.plain_int16
           (fun _ _ => Fixture.fake (fun _ => 25) Fixture.silent true)
           "00:1A:" "hci0"
           (Some (Fixture.fake (fun _ => -60) Fixture.silent true))
           Fixture.empty_world) = Raise (ValueError msg).
Proof.
  apply (init_refuses_an_empty_group Fixture.plain_int16
           (fun _ _ => Fixture.fake (fun _ => 25) Fixture.silent true)
           "00:1A:" "hci0").
  - reflexivity.
  - vm_compute. auto.
Defined.
